(** * Utils.cpp of the Arm NN Android driver: swizzling, operand
      translation and the diagnostic dumps.

    The development follows src/Utils.cpp function by function.  What the
    file takes from other libraries (the armnn tensor classes, the armnnUtils
    permutation routines, the stream insertion operators) is kept apart from
    the driver's own code and is marked where it is introduced. *)

From Stdlib Require Import ZArith List String Ascii Lia DecimalString HexadecimalString
  HexadecimalN.
From Stdlib.Strings Require Import Byte.
From stdpp Require Import gmap strings list functions.

Local Open Scope Z_scope.

(** ** Machine integers and their printed forms *)

(** [unsigned int] arithmetic: every result is reduced modulo 2^32. *)
Definition uint32 (z : Z) : Z := z mod 2 ^ 32.

(** The value of a 32-bit pattern read as [int32_t] (two's complement). *)
Definition int32_of_bits (z : Z) : Z := if z <? 2 ^ 31 then z else z - 2 ^ 32.

(** [operator<<] on an unsigned and on a signed integer: decimal digits. *)
Definition show_unsigned (z : Z) : string :=
  DecimalString.NilZero.string_of_uint (N.to_uint (Z.to_N z)).

Definition show_signed (z : Z) : string :=
  DecimalString.NilZero.string_of_int (Z.to_int z).

(** [std::uppercase << std::hex]: the digits of HexadecimalString, with the
    letters a-f raised to A-F. *)
Definition upper_hex_digit (c : ascii) : ascii :=
  if (97 <=? Z.of_nat (nat_of_ascii c)) && (Z.of_nat (nat_of_ascii c) <=? 102)
  then ascii_of_nat (nat_of_ascii c - 32) else c.

Fixpoint map_string (f : ascii → ascii) (s : string) : string :=
  match s with
  | EmptyString => EmptyString
  | String c s' => String (f c) (map_string f s')
  end.

Definition show_upper_hex (z : Z) : string :=
  map_string upper_hex_digit
    (HexadecimalString.NilZero.string_of_uint (N.to_hex_uint (Z.to_N z))).

Definition endl : string := String (ascii_of_nat 10) EmptyString.

Definition is_digit (c : ascii) : bool :=
  (48 <=? Z.of_nat (nat_of_ascii c)) && (Z.of_nat (nat_of_ascii c) <=? 57).

Fixpoint string_forall (p : ascii → bool) (s : string) : bool :=
  match s with
  | EmptyString => true
  | String c s' => p c && string_forall p s'
  end.

(** Number of line breaks in a text. *)
Fixpoint count_newlines (s : string) : nat :=
  match s with
  | EmptyString => 0%nat
  | String c s' =>
      ((if Ascii.eqb c (ascii_of_nat 10) then 1 else 0) + count_newlines s')%nat
  end.

(** ** Raw memory *)

(** What a [void*] gives access to: the byte found at each offset from the
    pointer.  A pointer carries no length, so neither does the model. *)
Definition Memory := nat → byte.

(** The bytes [first, first + 1, ...] of a list laid out from a pointer;
    memory past the list holds zero bytes. *)
Definition memory_of_bytes (bytes : list byte) : Memory :=
  λ offset, nth offset bytes x00.

(** Little-endian value of [width] bytes starting at [offset]. *)
Fixpoint load_le (width : nat) (mem : Memory) (offset : nat) : Z :=
  match width with
  | O => 0
  | S width' => Z.of_N (Byte.to_N (mem offset)) + 256 * load_le width' mem (S offset)
  end.

(** The [width] little-endian bytes of [z]. *)
Fixpoint bytes_le (width : nat) (z : Z) : list byte :=
  match width with
  | O => []
  | S width' =>
      match Byte.of_N (Z.to_N (z mod 256)) with
      | Some b => b :: bytes_le width' (z / 256)
      | None => x00 :: bytes_le width' (z / 256)
      end
  end.

(** ** C++ element types

    [float] is carried by its IEEE-754 binary32 bit pattern; the driver
    never computes with floats, it moves and prints them. *)
Definition uint8_t := byte.
Inductive uint32_t := U32 (value : Z).
Inductive int32_t := I32 (value : Z).
Inductive float := Float (bits : Z).

(** An element type of a tensor buffer: its size and how the bytes of an
    object are read ([reinterpret_cast<const T*>(area)[index]]).  Objects
    of more than one byte are laid out little-endian, as on the driver's
    targets. *)
Class ElementType (T : Type) := {
  sizeof : nat;
  element_at : Memory → nat → T
}.

#[export] Instance uint8_element : ElementType uint8_t :=
  {| sizeof := 1; element_at := λ mem index, mem index |}.
#[export] Instance int32_element : ElementType int32_t :=
  {| sizeof := 4;
     element_at := λ mem index, I32 (int32_of_bits (load_le 4 mem (index * 4))) |}.
#[export] Instance float_element : ElementType float :=
  {| sizeof := 4; element_at := λ mem index, Float (load_le 4 mem (index * 4)) |}.

(** [static_cast<To>(from)]. *)
Class StaticCast (From To : Type) := static_cast : From → To.

#[export] Instance cast_same (T : Type) : StaticCast T T := λ x, x.
#[export] Instance cast_uint8_uint32 : StaticCast uint8_t uint32_t :=
  λ b, U32 (Z.of_N (Byte.to_N b)).

(** [operator<<] of [std::ostream], by the static type of its argument.
    A [uint8_t] is a character type: the stream writes the character whose
    code it is.  The text written for a [float] is the standard library's
    business and is a parameter of the development. *)
Class Insertable (T : Type) := inserted_text : T → string.

#[export] Instance insert_uint8 : Insertable uint8_t :=
  λ b, String (ascii_of_byte b) EmptyString.
#[export] Instance insert_uint32 : Insertable uint32_t :=
  λ '(U32 v), show_unsigned v.
#[export] Instance insert_int32 : Insertable int32_t :=
  λ '(I32 v), show_signed v.

(** ** The armnn tensor classes, as far as Utils.cpp uses them *)

(** [armnn::DataType].  The enumeration belongs to armnn; Utils.cpp names
    three of its enumerators and treats every other value alike.  The
    numeric values of the enumerators are armnn's and are parameters
    below. *)
Inductive DataType :=
| Float32
| QuantisedAsymm8
| Signed32
| OtherDataType (value : Z).

#[export] Instance DataType_eq_dec : EqDecision DataType.
Proof. solve_decision. Defined.

(** [armnn::TensorShape]: the dimension sizes, outermost first. *)
Abbreviation TensorShape := (list nat) (only parsing).

Definition GetNumDimensions (shape : TensorShape) : nat := length shape.

(** [shape[i]]; armnn decides what happens past the last dimension, the
    model reads 0 there. *)
Definition dim (shape : TensorShape) (i : nat) : nat := nth i shape 0%nat.

(** Modelled from the spec: [TensorShape::GetNumElements] is armnn's; the
    spec's data model fixes it ("product of dimensions equals element
    count"). *)
Definition GetNumElements (shape : TensorShape) : nat := foldr Nat.mul 1%nat shape.

Record TensorInfo := {
  GetShape : TensorShape;
  GetDataType : DataType;
  GetQuantizationScale : float;
  GetQuantizationOffset : Z
}.

(** [armnn::ConstTensor]: a descriptor and a pointer to the elements. *)
Record ConstTensor := {
  GetInfo : TensorInfo;
  GetMemoryArea : Memory
}.

(** ** Outcomes, the log and the file system *)

(** Android NN HAL [OperandType]: the three tensor types Utils.cpp names,
    and every other value of the enumeration. *)
Inductive OperandType :=
| TENSOR_FLOAT32
| TENSOR_QUANT8_ASYMM
| TENSOR_INT32
| OtherOperandType (value : Z).

#[export] Instance OperandType_eq_dec : EqDecision OperandType.
Proof. solve_decision. Defined.

Inductive Exception :=
| UnsupportedOperand (type : OperandType).

(** How a call ends: it returns, an exception leaves it, or a failed
    [assert] ends the process. *)
Inductive Outcome (A : Type) :=
| Returned (a : A)
| Thrown (e : Exception)
| Aborted.
Arguments Returned {A} a.
Arguments Thrown {A} e.
Arguments Aborted {A}.

Inductive LogEntry :=
| Warning (text : string)
| Verbose (text : string).

(** The part of the process's surroundings the file works on: the files
    (path to content), which paths can be opened for writing, how many
    characters a file at a path takes before a write to it fails ([None]: no
    write fails), and the Android log.  Paths are taken to hold no NUL
    character, at which [open] and the [%s] of the log would end them. *)
Record World := {
  files : gmap string string;
  can_open : string → bool;
  capacity : string → option nat;
  log : list LogEntry
}.

Definition ALOGW (text : string) (w : World) : World :=
  {| files := files w; can_open := can_open w; capacity := capacity w;
     log := log w ++ [Warning text] |}.

Definition ALOGV (text : string) (w : World) : World :=
  {| files := files w; can_open := can_open w; capacity := capacity w;
     log := log w ++ [Verbose text] |}.

(** The first [n] characters of a text. *)
Fixpoint truncate (n : nat) (text : string) : string :=
  match n, text with
  | S n', String c text' => String c (truncate n' text')
  | _, _ => EmptyString
  end.

(** [std::ofstream]: the file it writes to, whether that file is open, the
    stream's state, the characters that reached the file, and the number of
    characters the file takes ([None]: any number). *)
Record ofstream := {
  path : string;
  is_open : bool;
  good : bool;
  data : string;
  limit : option nat
}.

(** [fileStream << text].  An insertion into a good stream reaches the
    file.  When the file cannot take the whole text, the part that fits is
    written, the stream goes bad ([badbit]), and every later insertion is
    dropped.  The stream's buffer, which only delays the moment a failed
    write shows, is left out: [DumpTensor] ends each of its branches with
    [std::endl], which flushes, before it tests [good()]. *)
Definition put (text : string) (s : ofstream) : ofstream :=
  if good s
  then
    match limit s with
    | None =>
        {| path := path s; is_open := is_open s; good := true;
           data := data s +:+ text; limit := limit s |}
    | Some n =>
        let free := (n - String.length (data s))%nat in
        {| path := path s; is_open := is_open s;
           good := (String.length text <=? free)%nat;
           data := data s +:+ truncate free text; limit := limit s |}
    end
  else s.

(** [open(fileName, out | trunc)]: where the path can be opened the file is
    created or emptied; where it cannot, the stream is bad from the start. *)
Definition open (fileName : string) (w : World) : ofstream * World :=
  if can_open w fileName
  then ({| path := fileName; is_open := true; good := true; data := "";
           limit := capacity w fileName |},
        {| files := <[fileName := ""]> (files w); can_open := can_open w;
           capacity := capacity w; log := log w |})
  else ({| path := fileName; is_open := false; good := false; data := "";
           limit := None |}, w).

(** The stream's destructor: what reached an open file is its content. *)
Definition close (s : ofstream) (w : World) : World :=
  if is_open s
  then {| files := <[path s := data s]> (files w); can_open := can_open w;
          capacity := capacity w; log := log w |}
  else w.

(** [for (i = 0; i < n; i++) body]. *)
Fixpoint for_loop {S : Type} (n : nat) (body : nat → S → S) (s : S) : S :=
  match n with
  | O => s
  | Datatypes.S n' => body n' (for_loop n' body s)
  end.

(** ** The dump writer (Utils.cpp, lines 145-281) *)

Section Driver.

(** Parameters taken from outside the driver: the text the standard library
    writes for a [float], and the numeric values armnn gives to the three
    enumerators of [DataType] that Utils.cpp names. *)
Variable show_float : Z → string.
Variables Float32_value QuantisedAsymm8_value Signed32_value : Z.

#[local] Instance insert_float : Insertable float := λ '(Float bits), show_float bits.

Definition DataType_value (t : DataType) : Z :=
  match t with
  | Float32 => Float32_value
  | QuantisedAsymm8 => QuantisedAsymm8_value
  | Signed32 => Signed32_value
  | OtherDataType value => value
  end.

Definition DumpElementFunction := ConstTensor → Z → ofstream → ofstream.

(** [template <typename ElementType, typename PrintableType = ElementType>
    void DumpTensorElement(tensor, elementIndex, fileStream)]. *)
Definition DumpTensorElement (Element Printable : Type)
  `{!ElementType Element} `{!StaticCast Element Printable} `{!Insertable Printable}
  : DumpElementFunction :=
  λ tensor elementIndex fileStream,
    let elements := element_at (T := Element) (GetMemoryArea tensor) in
    put "," (put (inserted_text (static_cast (To := Printable)
                                   (elements (Z.to_nat elementIndex)))) fileStream).

Definition MemoryLayoutString (tensor : ConstTensor) : string :=
  match GetNumDimensions (GetShape (GetInfo tensor)) with
  | 4%nat => "(BHWC) "
  | 3%nat => "(HWC) "
  | 2%nat => "(HW) "
  | _ => ""
  end.

(** The [switch] on the data type (lines 191-214); [None] is [nullptr]. *)
Definition select_dump_function (t : DataType) : option DumpElementFunction :=
  match t with
  | Float32 => Some (DumpTensorElement float float)
  | QuantisedAsymm8 => Some (DumpTensorElement uint8_t uint32_t)
  | Signed32 => Some (DumpTensorElement int32_t int32_t)
  | OtherDataType _ => None
  end.

(** The two header lines (lines 232-239). *)
Definition dump_header (tensor : ConstTensor) (fileStream : ofstream) : ofstream :=
  let shape := GetShape (GetInfo tensor) in
  let numDimensions := GetNumDimensions shape in
  let fileStream :=
    put endl (put (show_unsigned (Z.of_nat (GetNumElements shape)))
                (put "# Number of elements " fileStream)) in
  let fileStream := put (MemoryLayoutString tensor) (put "# Dimensions " fileStream) in
  let fileStream := put (show_unsigned (Z.of_nat (dim shape 0))) (put "[" fileStream) in
  let fileStream :=
    for_loop (numDimensions - 1)
      (λ i fileStream,
         let d := S i in
         put (show_unsigned (Z.of_nat (dim shape d))) (put "," fileStream))
      fileStream in
  put endl (put "]" fileStream).

(** The loop nest over batch, channel, row and column (lines 241-269).
    The state of the loops is the running element index [e] and the
    stream. *)
Definition dump_elements (dumpElementFunction : DumpElementFunction)
  (tensor : ConstTensor) (numDimensions batch height width channels : nat)
  (fileStream : ofstream) : ofstream :=
  let '(_, fileStream) :=
    for_loop batch
      (λ b '(e, fileStream),
         let fileStream :=
           if (4 <=? numDimensions)%nat
           then put endl (put (show_unsigned (Z.of_nat b)) (put "# Batch " fileStream))
           else fileStream in
         let '(e, fileStream) :=
           for_loop channels
             (λ c '(e, fileStream),
                let fileStream :=
                  if (3 <=? numDimensions)%nat
                  then put endl (put (show_unsigned (Z.of_nat c))
                                   (put "# Channel " fileStream))
                  else fileStream in
                let '(e, fileStream) :=
                  for_loop height
                    (λ h '(e, fileStream),
                       let '(e, fileStream) :=
                         for_loop width
                           (λ w '(e, fileStream),
                              let fileStream := dumpElementFunction tensor e fileStream in
                              (uint32 (e + Z.of_nat channels), fileStream))
                           (e, fileStream) in
                       (e, put endl fileStream))
                    (e, fileStream) in
                let e := uint32 (e - uint32 (Z.of_nat channels - 1)) in
                let e :=
                  if (c <? channels)%nat
                  then uint32 (e - uint32 (uint32 (uint32 (Z.of_nat height * Z.of_nat width) - 1)
                                           * Z.of_nat channels))
                  else e in
                (e, fileStream))
             (e, fileStream) in
         (e, put endl fileStream))
      (0, fileStream) in
  put endl fileStream.

(** Everything [DumpTensor] inserts into an open stream (lines 191-275). *)
Definition dump_body (tensor : ConstTensor) (fileStream : ofstream) : ofstream :=
  let dumpElementFunction := select_dump_function (GetDataType (GetInfo tensor)) in
  match dumpElementFunction with
  | Some dumpElementFunction =>
      let shape := GetShape (GetInfo tensor) in
      let numDimensions := GetNumDimensions shape in
      let batch := if (numDimensions =? 4)%nat then dim shape (numDimensions - 4) else 1%nat in
      let height :=
        if (3 <=? numDimensions)%nat then dim shape (numDimensions - 3)
        else if (2 <=? numDimensions)%nat then dim shape (numDimensions - 2) else 1%nat in
      let width :=
        if (3 <=? numDimensions)%nat then dim shape (numDimensions - 2)
        else if (1 <=? numDimensions)%nat then dim shape (numDimensions - 1) else 0%nat in
      let channels := if (3 <=? numDimensions)%nat then dim shape (numDimensions - 1) else 1%nat in
      let fileStream := dump_header tensor fileStream in
      dump_elements dumpElementFunction tensor numDimensions batch height width channels
        fileStream
  | None =>
      put endl
        (put (show_unsigned (uint32 (DataType_value (GetDataType (GetInfo tensor)))))
           (put "Cannot dump tensor elements: Unsupported data type " fileStream))
  end.

Definition dump_file_name (dumpDir requestName tensorName : string) : string :=
  dumpDir +:+ "/" +:+ requestName +:+ "_" +:+ tensorName +:+ ".dump".

Definition DumpTensor (dumpDir requestName tensorName : string) (tensor : ConstTensor)
  (w : World) : Outcome unit * World :=
  let fileName := dump_file_name dumpDir requestName tensorName in
  let '(fileStream, w) := open fileName w in
  if negb (good fileStream)
  then (Returned tt, ALOGW ("Could not open file " +:+ fileName +:+ " for writing") w)
  else
    let fileStream := dump_body tensor fileStream in
    let w :=
      if negb (good fileStream)
      then ALOGW ("An error occurred when writing to file " +:+ fileName) w
      else w in
    (Returned tt, close fileStream w).

(** ** Typed views of raw memory

    A [T*] obtained from a [void*] reads and writes objects of [sizeof T]
    bytes.  [store_at] is the assignment [pointer[index] = value]. *)
Class ElementStore (T : Type) `{!ElementType T} :=
  store_at : Memory → nat → T → Memory.

(** Writing the bytes [bytes] at byte offset [offset]. *)
Definition write_bytes (mem : Memory) (offset : nat) (bytes : list byte) : Memory :=
  λ a, if decide (offset ≤ a < offset + length bytes)%nat
       then nth (a - offset) bytes x00 else mem a.

#[export] Instance uint8_store : ElementStore uint8_t :=
  λ mem index b, <[index := b]> mem.
#[export] Instance int32_store : ElementStore int32_t :=
  λ mem index '(I32 v), write_bytes mem (index * 4) (bytes_le 4 (uint32 v)).
#[export] Instance float_store : ElementStore float :=
  λ mem index '(Float bits), write_bytes mem (index * 4) (bytes_le 4 bits).

(** What the round trip needs of a typed view: an object copied from
    memory is read back as it was stored, and a store leaves the objects at
    the other indices alone. *)
Class ElementLaws (T : Type) `{!ElementType T} `{!ElementStore T} : Prop := {
  load_store_eq : ∀ (mem src : Memory) (i k : nat),
    element_at (T := T) (store_at mem i (element_at (T := T) src k)) i
    = element_at (T := T) src k;
  load_store_ne : ∀ (mem : Memory) (i j : nat) (v : T),
    i ≠ j → element_at (T := T) (store_at mem i v) j = element_at (T := T) mem j
}.

(** ** The armnnUtils permutation routines (Permute.hpp) *)

Abbreviation PermutationVector := (list nat) (only parsing).

Definition g_DontPermute : PermutationVector := [].

(** Reordering a tuple by a permutation vector: entry [i] of the result is
    entry [mappings[i]] of the tuple. *)
Definition permute_tuple (mappings : PermutationVector) (xs : list nat) : list nat :=
  map (λ p, nth p xs 0%nat) mappings.

(** Position of the first [x] in a list. *)
Fixpoint index_of (x : nat) (l : list nat) : nat :=
  match l with
  | [] => 0%nat
  | y :: l' => if decide (x = y) then 0%nat else S (index_of x l')
  end.

(** The inverse of a permutation vector. *)
Definition inverse (mappings : PermutationVector) : PermutationVector :=
  map (λ j, index_of j mappings) (seq 0 (length mappings)).

(** Row-major flat offset of a multi-index, and the multi-index of a flat
    offset. *)
Fixpoint flat_offset (shape : TensorShape) (index : list nat) : nat :=
  match shape, index with
  | _ :: shape', i :: index' =>
      (i * GetNumElements shape' + flat_offset shape' index')%nat
  | _, _ => 0%nat
  end.

Fixpoint multi_index (shape : TensorShape) (offset : nat) : list nat :=
  match shape with
  | [] => []
  | _ :: shape' =>
      (offset / GetNumElements shape')%nat
        :: multi_index shape' (offset mod GetNumElements shape')%nat
  end.

(** Modelled from the spec: [armnnUtils::Permuted] is armnn's.  Section 4.1:
    "destinationShape[i] = sourceShape[permutationVector[i]] for every axis
    i"; section 3: "an empty permutation vector denotes identity". *)
Definition Permuted (srcShape : TensorShape) (mappings : PermutationVector) : TensorShape :=
  match mappings with
  | [] => srcShape
  | _ => permute_tuple mappings srcShape
  end.

(** Modelled from the spec: [armnnUtils::Permute] is armnn's.  Section 4.1:
    every multi-index of the source tensor, taken in row-major order, is
    sent to the destination multi-index that permutes its coordinates the way
    the axes were permuted, and the element at the source flat offset is
    copied to the destination flat offset; with the empty vector the data is
    copied unchanged.  Utils.cpp hands the routine the destination shape; the
    source shape is the one the vector permutes into it. *)
Definition Permute {T : Type} `{!ElementType T} `{!ElementStore T}
  (dstShape : TensorShape) (mappings : PermutationVector)
  (src : Memory) (dst : Memory) : Memory :=
  match mappings with
  | [] =>
      for_loop (GetNumElements dstShape)
        (λ k dst, store_at dst k (element_at (T := T) src k)) dst
  | _ =>
      let srcShape := Permuted dstShape (inverse mappings) in
      for_loop (GetNumElements srcShape)
        (λ k dst,
           let srcIndex := multi_index srcShape k in
           let dstIndex := permute_tuple mappings srcIndex in
           store_at dst (flat_offset dstShape dstIndex) (element_at (T := T) src k))
        dst
  end.

(** ** Swizzling (Utils.cpp, lines 30-59) *)

(** [template <typename T> void SwizzleAndroidNn4dTensorToArmNn(inTensorShape,
    input, output, mappings)]; the result is the memory behind [output]
    after the call. *)
Definition SwizzleAndroidNn4dTensorToArmNn_typed (T : Type)
  `{!ElementType T} `{!ElementStore T}
  (inTensorShape : TensorShape) (input output : Memory)
  (mappings : PermutationVector) : Memory :=
  let inputData := input in
  let outputData := output in
  Permute (T := T) (Permuted inTensorShape mappings) mappings inputData outputData.

(** Whether the build defines NDEBUG, which turns [assert] into nothing. *)
Variable NDEBUG : bool.

Definition SwizzleAndroidNn4dTensorToArmNn (tensor : TensorInfo) (input output : Memory)
  (mappings : PermutationVector) (w : World) : Outcome unit * Memory * World :=
  if negb NDEBUG && negb (GetNumDimensions (GetShape tensor) =? 4)%nat
  then (Aborted, output, w)
  else
    match GetDataType tensor with
    | Float32 =>
        (Returned tt,
         SwizzleAndroidNn4dTensorToArmNn_typed float (GetShape tensor) input output mappings,
         w)
    | QuantisedAsymm8 =>
        (Returned tt,
         SwizzleAndroidNn4dTensorToArmNn_typed uint8_t (GetShape tensor) input output mappings,
         w)
    | _ =>
        let w := ALOGW "Unknown armnn::DataType for swizzling" w in
        (if NDEBUG then Returned tt else Aborted, output, w)
    end.

(** ** Operand translation (Utils.cpp, lines 81-106) *)

Record Operand := {
  type : OperandType;
  dimensions : list nat;
  scale : float;
  zeroPoint : Z
}.

#[export] Instance Outcome_bind : MBind Outcome :=
  λ A B k m,
    match m with
    | Returned a => k a
    | Thrown e => Thrown e
    | Aborted => Aborted
    end.

Definition GetTensorInfoForOperand (operand : Operand) : Outcome TensorInfo :=
  type ← match type operand with
          | TENSOR_FLOAT32 => Returned Float32
          | TENSOR_QUANT8_ASYMM => Returned QuantisedAsymm8
          | TENSOR_INT32 => Returned Signed32
          | OtherOperandType _ => Thrown (UnsupportedOperand (type operand))
          end;
  let ret := {| GetShape := dimensions operand; GetDataType := type;
                GetQuantizationScale := Float 0; GetQuantizationOffset := 0 |} in
  let ret := {| GetShape := GetShape ret; GetDataType := GetDataType ret;
                GetQuantizationScale := scale operand;
                GetQuantizationOffset := GetQuantizationOffset ret |} in
  let ret := {| GetShape := GetShape ret; GetDataType := GetDataType ret;
                GetQuantizationScale := GetQuantizationScale ret;
                GetQuantizationOffset := zeroPoint operand |} in
  Returned ret.

(** ** Graph export (Utils.cpp, lines 283-320) *)

Inductive Status := Success | Failure.

(** [armnn::IOptimizedNetwork]: the one member Utils.cpp calls. *)
Record IOptimizedNetwork := {
  SerializeToDot : ofstream → Status * ofstream
}.

(** [const V1_0::Model&]: the export uses only the address of the object. *)
Record Model := {
  address : Z
}.

Definition ExportNetworkGraphToDotFile (optimizedNetwork : IOptimizedNetwork)
  (dumpDir : string) (model : Model) (w : World) : Outcome unit * World :=
  if decide (dumpDir = "")
  then (Returned tt, w)
  else
    let modelAddress := address model in
    let modelAddressHexString := show_upper_hex modelAddress in
    let fileName := dumpDir +:+ "/networkgraph_" +:+ modelAddressHexString +:+ ".dot" in
    let w := ALOGV ("Exporting the optimized network graph to file: " +:+ fileName) w in
    let '(fileStream, w) := open fileName w in
    if negb (good fileStream)
    then (Returned tt, ALOGW ("Could not open file " +:+ fileName +:+ " for writing") w)
    else
      let '(status, fileStream) := SerializeToDot optimizedNetwork fileStream in
      let w :=
        match status with
        | Success => w
        | Failure => ALOGW ("An error occurred when writing to file " +:+ fileName) w
        end in
      (Returned tt, close fileStream w).

(** ** Inputs of the scenarios *)

(** The binary32 pattern of a whole number below 2^24. *)
Definition float32_bits_of_nat (n : nat) : Z :=
  match n with
  | O => 0
  | _ =>
      let e := Z.log2 (Z.of_nat n) in
      Z.shiftl (e + 127) 23 + Z.shiftl (Z.of_nat n - 2 ^ e) (23 - e)
  end.

(** What [operator<<] writes, at its default precision, for the binary32
    pattern of a whole number below 10^6: the number's decimal digits. *)
Definition show_whole_float (bits : Z) : string :=
  if bits =? 0 then "0"
  else
    let e := Z.shiftr bits 23 - 127 in
    let m := Z.land bits (2 ^ 23 - 1) in
    show_unsigned (Z.shiftr (2 ^ 23 + m) (23 - e)).

Definition tensor_of (shape : TensorShape) (t : DataType) (bytes : list byte) : ConstTensor :=
  {| GetInfo := {| GetShape := shape; GetDataType := t;
                   GetQuantizationScale := Float 0; GetQuantizationOffset := 0 |};
     GetMemoryArea := memory_of_bytes bytes |}.

(** Shape [1,2,2,3], 32-bit floats 0..11 in row-major order. *)
Definition sequential_float_tensor : ConstTensor :=
  tensor_of [1; 2; 2; 3]%nat Float32
    (flat_map (λ n, bytes_le 4 (float32_bits_of_nat n)) (seq 0 12)).

(** Shape [2,1,2,1], quantised bytes 10, 20, 30, 40. *)
Definition two_batch_tensor : ConstTensor :=
  tensor_of [2; 1; 2; 1]%nat QuantisedAsymm8 [x0a; x14; x1e; x28].

(** Shape [1,1,1,1], one 32-bit signed integer. *)
Definition signed_tensor_info : TensorInfo :=
  {| GetShape := [1; 1; 1; 1]%nat; GetDataType := Signed32;
     GetQuantizationScale := Float 0; GetQuantizationOffset := 0 |}.

(** A text given line by line. *)
Definition lines (ls : list string) : string :=
  foldr (λ l text, l +:+ endl +:+ text) "" ls.

(** An element function that writes the element index it is called with
    in place of the element. *)
Definition index_probe : DumpElementFunction :=
  λ _ elementIndex fileStream, put " " (put (show_unsigned elementIndex) fileStream).

(** The element index the loop nest of the dump is at when it reaches
    batch [b], channel [c], row [h] and column [w]. *)
Definition visited_offset (height width channels b c h w : nat) : Z :=
  uint32 (Z.of_nat b * Z.of_nat channels + Z.of_nat c
          + (Z.of_nat h * Z.of_nat width + Z.of_nat w) * Z.of_nat channels).

(** The row-major offset of that grid position in a batch-height-width-
    channel buffer. *)
Definition bhwc_offset (height width channels b c h w : nat) : Z :=
  ((Z.of_nat b * Z.of_nat height + Z.of_nat h) * Z.of_nat width + Z.of_nat w)
  * Z.of_nat channels + Z.of_nat c.

(** The text of the loop nest with the element index given by [offset]
    at each grid position. *)
Definition dump_grid (offset : nat → nat → nat → nat → Z)
  (dumpElementFunction : DumpElementFunction) (tensor : ConstTensor)
  (numDimensions batch height width channels : nat) (fileStream : ofstream) : ofstream :=
  let fileStream :=
    for_loop batch
      (λ b fileStream,
         let fileStream :=
           if (4 <=? numDimensions)%nat
           then put endl (put (show_unsigned (Z.of_nat b)) (put "# Batch " fileStream))
           else fileStream in
         let fileStream :=
           for_loop channels
             (λ c fileStream,
                let fileStream :=
                  if (3 <=? numDimensions)%nat
                  then put endl (put (show_unsigned (Z.of_nat c))
                                   (put "# Channel " fileStream))
                  else fileStream in
                for_loop height
                  (λ h fileStream,
                     put endl
                       (for_loop width
                          (λ w fileStream,
                             dumpElementFunction tensor (offset b c h w) fileStream)
                          fileStream))
                  fileStream)
             fileStream in
         put endl fileStream)
      fileStream in
  put endl fileStream.

(** The swizzle call ends on its unknown-type path: the warning is logged,
    the destination is as it was, and the failed assertion ends the process
    unless the build compiles assertions out. *)
Definition swizzle_rejects (tensor : TensorInfo) (input output : Memory)
  (mappings : PermutationVector) (w : World) : Prop :=
  SwizzleAndroidNn4dTensorToArmNn tensor input output mappings w
  = (if NDEBUG then Returned tt else Aborted, output,
     ALOGW "Unknown armnn::DataType for swizzling" w).

(** Shape [2,3] with a data type armnn numbers 7. *)
Definition unknown_type_tensor : ConstTensor :=
  tensor_of [2; 3]%nat (OtherDataType 7) [].

(** An operand of a scalar type of the HAL, and a tensor of 32-bit
    integers. *)
Definition scalar_operand : Operand :=
  {| type := OtherOperandType 1; dimensions := [];
     scale := Float 0; zeroPoint := 0 |}.

Definition int32_operand : Operand :=
  {| type := TENSOR_INT32; dimensions := [2; 3]%nat;
     scale := Float 0; zeroPoint := 0 |}.

(** Six bytes 0..5, and a buffer of zero bytes. *)
Definition six_bytes : Memory := memory_of_bytes [x00; x01; x02; x03; x04; x05].

Definition zero_memory : Memory := memory_of_bytes [].

(** A world where every path opens and no write fails, one where no path
    opens, and one where every path opens and a file takes [n] characters. *)
Definition empty_world : World :=
  {| files := ∅; can_open := λ _, true; capacity := λ _, None; log := [] |}.

Definition closed_world : World :=
  {| files := ∅; can_open := λ _, false; capacity := λ _, None; log := [] |}.

Definition world_of_capacity (n : nat) : World :=
  {| files := ∅; can_open := λ _, true; capacity := λ _, Some n; log := [] |}.

(** The stream [open] gives for a file that takes [limit] characters, and
    the one for a file that takes every write. *)
Definition stream_on (fileName : string) (limit : option nat) : ofstream :=
  {| path := fileName; is_open := true; good := true; data := ""; limit := limit |}.

Definition new_stream (fileName : string) : ofstream :=
  {| path := fileName; is_open := true; good := true; data := ""; limit := None |}.

(** One stream continues another: same file, more text, and the same state
    where no write can fail. *)
Definition extends (s s' : ofstream) : Prop :=
  path s' = path s ∧ is_open s' = is_open s ∧ limit s' = limit s
  ∧ (limit s = None → good s' = good s)
  ∧ ∃ rest, data s' = data s +:+ rest.

(** The texts [text 0], ..., [text (n - 1)] one after the other. *)
Definition concat_for (n : nat) (text : nat → string) : string :=
  foldr (λ i rest, text i +:+ rest) "" (seq 0 n).

(** The lines of a grid of elements: per batch its heading (rank 4 and up),
    per channel its heading (rank 3 and up) and its rows, each row the texts
    of its elements and a line break; a blank line after each batch and one
    at the end.  [element e] is the text of the element at index [e],
    [offset b c h w] the index of a grid position. *)
Definition grid_text (element : Z → string) (offset : nat → nat → nat → nat → Z)
  (numDimensions batch height width channels : nat) : string :=
  concat_for batch
    (λ b,
       (if (4 <=? numDimensions)%nat
        then "# Batch " +:+ show_unsigned (Z.of_nat b) +:+ endl else "")
       +:+ concat_for channels
             (λ c,
                (if (3 <=? numDimensions)%nat
                 then "# Channel " +:+ show_unsigned (Z.of_nat c) +:+ endl else "")
                +:+ concat_for height
                      (λ h, concat_for width (λ w, element (offset b c h w)) +:+ endl))
       +:+ endl)
  +:+ endl.

(** A function on streams that does nothing but insert one text. *)
Definition inserts (F : ofstream → ofstream) : Prop :=
  ∃ text, ∀ s, F s = put text s.

(** The text a dump of the tensor consists of: what [DumpTensor] inserts
    into a stream whose writes all succeed. *)
Definition dump_text (tensor : ConstTensor) : string :=
  data (dump_body tensor (new_stream "")).

(** Whether a file that takes [limit] characters takes the whole of a
    text, and the part of the text that reaches it. *)
Definition fits (limit : option nat) (text : string) : bool :=
  match limit with
  | Some n => (String.length text <=? n)%nat
  | None => true
  end.

Definition accepted (limit : option nat) (text : string) : string :=
  match limit with
  | Some n => truncate n text
  | None => text
  end.

(** The file at [fileName] takes the whole of [text]. *)
Definition room_for (w : World) (fileName text : string) : bool :=
  fits (capacity w fileName) text.

(** ** The dump writer, continued *)

(** The extents of the dump's four loops as [DumpTensor] takes them from
    the shape (lines 218-230). *)
Definition dump_batch (shape : TensorShape) : nat :=
  if (GetNumDimensions shape =? 4)%nat then dim shape (GetNumDimensions shape - 4) else 1%nat.

Definition dump_height (shape : TensorShape) : nat :=
  if (3 <=? GetNumDimensions shape)%nat then dim shape (GetNumDimensions shape - 3)
  else if (2 <=? GetNumDimensions shape)%nat then dim shape (GetNumDimensions shape - 2)
       else 1%nat.

Definition dump_width (shape : TensorShape) : nat :=
  if (3 <=? GetNumDimensions shape)%nat then dim shape (GetNumDimensions shape - 2)
  else if (1 <=? GetNumDimensions shape)%nat then dim shape (GetNumDimensions shape - 1)
       else 0%nat.

Definition dump_channels (shape : TensorShape) : nat :=
  if (3 <=? GetNumDimensions shape)%nat then dim shape (GetNumDimensions shape - 1) else 1%nat.

(** The number of bytes of one element as the element function chosen for
    a data type reads it. *)
Definition DataType_size (t : DataType) : nat :=
  match t with
  | Float32 => 4%nat
  | QuantisedAsymm8 => 1%nat
  | Signed32 => 4%nat
  | OtherDataType _ => 0%nat
  end.

(** Two memories hold the same first [n] bytes. *)
Definition agree_below (n : nat) (m m' : Memory) : Prop :=
  ∀ a, (a < n)%nat → m a = m' a.

(** The dimension sizes, in decimal, separated by commas. *)
Definition dimensions_text (shape : TensorShape) : string :=
  String.concat "," (map (λ d, show_unsigned (Z.of_nat d)) shape).

(** The dimension sizes after the first, each with its comma in front, as
    the header's loop writes them. *)
Definition comma_prefixed (sizes : list nat) : string :=
  foldr (λ d text, "," +:+ show_unsigned (Z.of_nat d) +:+ text) "" sizes.

(** ** Graph export, continued *)

(** The name of the file the graph export writes (lines 293-302). *)
Definition network_graph_file_name (dumpDir : string) (model : Model) : string :=
  dumpDir +:+ "/networkgraph_" +:+ show_upper_hex (address model) +:+ ".dot".

Definition is_upper_hex_digit (c : ascii) : bool :=
  is_digit c
  || ((65 <=? Z.of_nat (nat_of_ascii c)) && (Z.of_nat (nat_of_ascii c) <=? 70)).

(** The lower-case letter of an upper-case hexadecimal letter. *)
Definition lower_hex_digit (c : ascii) : ascii :=
  if (65 <=? Z.of_nat (nat_of_ascii c)) && (Z.of_nat (nat_of_ascii c) <=? 70)
  then ascii_of_nat (nat_of_ascii c + 32) else c.

(** ** Memory pools (Utils.cpp, lines 61-79) *)

(** HAL [DataLocation]: the pool and the byte offset in it. *)
Record DataLocation := {
  poolIndex : nat;
  offset : nat
}.

(** [android::nn::RunTimePoolInfo]: the pool's buffer (the member [buffer]
    before Android P, the accessor [getBuffer()] from it on). *)
Record RunTimePoolInfo := {
  getBuffer : Memory
}.

(** [pointer + n] on a byte pointer. *)
Definition advance (pointer : Memory) (n : nat) : Memory :=
  λ a, pointer (n + a)%nat.

(** [None] stands for a call whose behaviour C++ leaves undefined: with
    assertions compiled out, the vector of pools indexed past its end. *)
Definition GetMemoryFromPool (location : DataLocation) (memPools : list RunTimePoolInfo)
  : option (Outcome Memory) :=
  if negb NDEBUG && negb (poolIndex location <? length memPools)%nat
  then Some Aborted
  else
    memPool ← memPools !! poolIndex location;
    let memPoolBuffer := getBuffer memPool in
    let memory := advance memPoolBuffer (offset location) in
    Some (Returned memory).

(** ** Summaries (Utils.cpp, lines 108-143) *)

(** HAL [OperationType]: Utils.cpp names none of its enumerators. *)
Inductive OperationType :=
| OperationTypeValue (value : Z).

(** From the HAL: the texts [toString] gives for an operand type and for
    an operation type, and [details::arrayToString]. *)
Variable OperandType_toString : OperandType → string.
Variable OperationType_toString : OperationType → string.
Variable arrayToString : list nat → nat → string.

(** HAL [Operation], of which the summary reads the type. *)
Record Operation := {
  operation_type : OperationType
}.

(** HAL [V1_0::Model] as the summary reads it: its four vectors. *)
Record ModelContent := {
  operands : list Operand;
  operations : list Operation;
  inputIndexes : list nat;
  outputIndexes : list nat
}.

(** What inserting [s.c_str()] writes: the characters before the first
    NUL. *)
Fixpoint c_str (s : string) : string :=
  match s with
  | EmptyString => EmptyString
  | String c s' => if Ascii.eqb c zero then EmptyString else String c (c_str s')
  end.

Definition GetOperandSummary (operand : Operand) : string :=
  (arrayToString (dimensions operand) (length (dimensions operand)) +:+ " ")
  +:+ OperandType_toString (type operand).

(** The [std::stringstream] is its text; [None] stands for undefined
    behaviour, a vector indexed past its end. *)
Definition GetModelSummary (model : ModelContent) : option string :=
  let result := "" in
  let result :=
    ((((((((result +:+ show_unsigned (Z.of_nat (length (inputIndexes model))))
           +:+ " input(s), ")
          +:+ show_unsigned (Z.of_nat (length (operations model))))
         +:+ " operation(s), ")
        +:+ show_unsigned (Z.of_nat (length (outputIndexes model))))
       +:+ " output(s), ")
      +:+ show_unsigned (Z.of_nat (length (operands model))))
     +:+ " operand(s)")
    +:+ endl in
  let result := result +:+ "Inputs: " in
  result ←
    for_loop (length (inputIndexes model))
      (λ i result,
         result ← result;
         index ← inputIndexes model !! i;
         operand ← operands model !! index;
         Some ((result +:+ GetOperandSummary operand) +:+ ", "))
      (Some result);
  let result := result +:+ endl in
  let result := result +:+ "Operations: " in
  result ←
    for_loop (length (operations model))
      (λ i result,
         result ← result;
         operation ← operations model !! i;
         Some ((result +:+ c_str (OperationType_toString (operation_type operation)))
               +:+ ", "))
      (Some result);
  let result := result +:+ endl in
  let result := result +:+ "Outputs: " in
  result ←
    for_loop (length (outputIndexes model))
      (λ i result,
         result ← result;
         index ← outputIndexes model !! i;
         operand ← operands model !! index;
         Some ((result +:+ GetOperandSummary operand) +:+ ", "))
      (Some result);
  let result := result +:+ endl in
  Some result.

(** Items each followed by a comma and a blank. *)
Definition listing (items : list string) : string :=
  foldr (λ item text, item +:+ ", " +:+ text) "" items.

(** A good stream, none of whose writes fails, that holds [n] line
    breaks. *)
Definition counted (s : ofstream) (n : nat) : Prop :=
  good s = true ∧ limit s = None ∧ count_newlines (data s) = n.

(** The number of lines the loop nest of a dump writes: per batch its
    heading (rank 4 and up), per channel its heading (rank 3 and up) and one
    line per row, a blank line after each batch and one at the end. *)
Definition dump_grid_lines (numDimensions batch height channels : nat) : nat :=
  (batch * ((if (4 <=? numDimensions)%nat then 1 else 0)
            + channels * ((if (3 <=? numDimensions)%nat then 1 else 0) + height)
            + 1)
   + 1)%nat.

(** ** Further inputs *)

(** The two-batch tensor with one more byte behind its four elements. *)
Definition two_batch_tensor_longer : ConstTensor :=
  {| GetInfo := GetInfo two_batch_tensor;
     GetMemoryArea := memory_of_bytes [x0a; x14; x1e; x28; xff] |}.

(** Shape [2,3], 32-bit signed integers, as [int32_operand] translates. *)
Definition int32_tensor : ConstTensor :=
  tensor_of [2; 3]%nat Signed32 [].

Definition int32_operand_4d : Operand :=
  {| type := TENSOR_INT32; dimensions := [1; 1; 1; 1]%nat;
     scale := Float 0; zeroPoint := 0 |}.

(** A network whose serializer writes an empty graph and succeeds. *)
Definition empty_graph_network : IOptimizedNetwork :=
  {| SerializeToDot := λ fileStream, (Success, put "digraph {}" fileStream) |}.

Definition model_at (a : Z) : Model := {| address := a |}.

(** Two operands, two operations; both operands are inputs, the second is
    the output. *)
Definition small_model : ModelContent :=
  {| operands := [int32_operand; scalar_operand];
     operations := [ {| operation_type := OperationTypeValue 3 |};
                     {| operation_type := OperationTypeValue 14 |} ];
     inputIndexes := [0; 1]%nat;
     outputIndexes := [1]%nat |}.

(** Stand-ins for the HAL's [toString] functions and [arrayToString]. *)
Definition operand_type_name (t : OperandType) : string :=
  match t with
  | TENSOR_FLOAT32 => "TENSOR_FLOAT32"
  | TENSOR_QUANT8_ASYMM => "TENSOR_QUANT8_ASYMM"
  | TENSOR_INT32 => "TENSOR_INT32"
  | OtherOperandType _ => "OTHER"
  end.

Definition operation_type_name (t : OperationType) : string :=
  match t with OperationTypeValue value => show_unsigned value end.

Definition size_in_braces (sizes : list nat) (n : nat) : string :=
  "{" +:+ show_unsigned (Z.of_nat n) +:+ "}".

(** * Properties *)

(** ** Strings and streams *)

Lemma append_cons (x : ascii) (a b : string) : String x a +:+ b = String x (a +:+ b).
Proof. reflexivity. Qed.

Lemma append_empty_l (a : string) : "" +:+ a = a.
Proof. reflexivity. Qed.

Lemma append_assoc (a b c : string) : (a +:+ b) +:+ c = a +:+ (b +:+ c).
Proof.
  induction a as [|x a IH]; [reflexivity |].
  by rewrite !append_cons, IH.
Qed.

Lemma append_empty_r (a : string) : a +:+ "" = a.
Proof.
  induction a as [|x a IH]; [reflexivity |].
  by rewrite append_cons, IH.
Qed.

Lemma count_newlines_append (a b : string) :
  count_newlines (a +:+ b) = (count_newlines a + count_newlines b)%nat.
Proof.
  induction a as [|x a IH]; [reflexivity |].
  rewrite append_cons. simpl. rewrite IH. lia.
Qed.

Lemma digits_no_newline (s : string) :
  string_forall is_digit s = true → count_newlines s = 0%nat.
Proof.
  induction s as [|c s IH]; simpl; [reflexivity |].
  intros [Hc Hs]%andb_prop. rewrite (IH Hs).
  destruct (Ascii.eqb_spec c (ascii_of_nat 10)) as [->|_]; [discriminate Hc | reflexivity].
Qed.

Lemma string_of_uint_digits (d : Decimal.uint) :
  string_forall is_digit (DecimalString.NilEmpty.string_of_uint d) = true.
Proof. induction d; simpl; auto. Qed.

Lemma show_unsigned_digits (z : Z) : string_forall is_digit (show_unsigned z) = true.
Proof.
  unfold show_unsigned, DecimalString.NilZero.string_of_uint.
  destruct (N.to_uint (Z.to_N z)) eqn:E; try reflexivity;
    rewrite <- E; apply string_of_uint_digits.
Qed.

Lemma length_append (a b : string) :
  String.length (a +:+ b) = (String.length a + String.length b)%nat.
Proof.
  induction a as [|x a IH]; [reflexivity |].
  rewrite append_cons. simpl. by rewrite IH.
Qed.

Lemma truncate_all (n : nat) (text : string) :
  (String.length text ≤ n)%nat → truncate n text = text.
Proof.
  revert n. induction text as [|c text IH]; intros [|n] H; simpl in *;
    [reflexivity | reflexivity | lia |].
  f_equal. apply IH. lia.
Qed.

Lemma truncate_append_fits (n : nat) (a b : string) :
  (String.length a ≤ n)%nat →
  truncate n (a +:+ b) = a +:+ truncate (n - String.length a) b.
Proof.
  revert n. induction a as [|c a IH]; intros n H.
  - by rewrite !append_empty_l, Nat.sub_0_r.
  - destruct n as [|n]; simpl in H; [lia |].
    rewrite !append_cons. simpl. f_equal. apply IH. lia.
Qed.

Lemma truncate_append_cut (n : nat) (a b : string) :
  (n ≤ String.length a)%nat → truncate n (a +:+ b) = truncate n a.
Proof.
  revert n. induction a as [|c a IH]; intros n H.
  - simpl in H. assert (n = 0)%nat as -> by lia. by destruct b.
  - destruct n as [|n]; [reflexivity |].
    rewrite append_cons. simpl in *. f_equal. apply IH. lia.
Qed.

Lemma length_truncate (n : nat) (text : string) :
  String.length (truncate n text) = (n `min` String.length text)%nat.
Proof.
  revert n. induction text as [|c text IH]; intros [|n]; simpl; try reflexivity.
  by rewrite IH.
Qed.

Lemma extends_refl (s : ofstream) : extends s s.
Proof. repeat split. exists "". by rewrite append_empty_r. Qed.

Lemma extends_trans (s1 s2 s3 : ofstream) : extends s1 s2 → extends s2 s3 → extends s1 s3.
Proof.
  intros (Hp & Ho & Hl & Hg & r & Hd) (Hp' & Ho' & Hl' & Hg' & r' & Hd').
  repeat split; [congruence | congruence | congruence | |].
  - intros Hnone. rewrite Hg' by congruence. by apply Hg.
  - exists (r +:+ r'). by rewrite Hd', Hd, append_assoc.
Qed.

Lemma extends_put (text : string) (s : ofstream) : extends s (put text s).
Proof.
  unfold put. destruct (good s) eqn:Hg; [| apply extends_refl].
  destruct (limit s) as [n|] eqn:Hl; unfold extends; cbn [path is_open limit good data];
    rewrite ?Hl; (split; [done |]); (split; [done |]); (split; [done |]);
    (split; [done || (intros; discriminate) | eauto]).
Qed.

Lemma extends_put_trans (text : string) (s s' : ofstream) :
  extends s s' → extends s (put text s').
Proof. intros H. eapply extends_trans; [exact H | apply extends_put]. Qed.

Lemma for_loop_invariant {S : Type} (P : S → Prop) (n : nat) (body : nat → S → S) (s : S) :
  P s → (∀ i s, (i < n)%nat → P s → P (body i s)) → P (for_loop n body s).
Proof.
  intros Hs Hbody. induction n as [|n IH]; simpl; [exact Hs |].
  apply Hbody; [lia |]. apply IH. intros i s' Hi. apply Hbody. lia.
Qed.

Lemma put_good (text : string) (s : ofstream) :
  good s = true → limit s = None →
  put text s
  = {| path := path s; is_open := is_open s; good := true; data := data s +:+ text;
       limit := None |}.
Proof. intros Hgood Hlimit. unfold put. by rewrite Hgood, Hlimit. Qed.

(** ** Insertions one after the other *)

(** Two insertions are one insertion of the two texts, whatever the state
    of the stream and however much its file takes. *)
Lemma put_put (a b : string) (s : ofstream) : put b (put a s) = put (a +:+ b) s.
Proof.
  unfold put. destruct (good s) eqn:Hgood; [| by rewrite Hgood].
  destruct (limit s) as [n|] eqn:Hlimit; cbn [good limit data path is_open].
  - set (free := (n - String.length (data s))%nat).
    destruct (String.length a <=? free)%nat eqn:Ha.
    + apply Nat.leb_le in Ha. rewrite (truncate_all free a Ha).
      rewrite (truncate_append_fits free a b Ha), !length_append, append_assoc.
      replace (n - (String.length (data s) + String.length a))%nat
        with (free - String.length a)%nat by (unfold free; lia).
      f_equal. destruct (String.length b <=? free - String.length a)%nat eqn:Hb.
      * apply Nat.leb_le in Hb. symmetry. apply Nat.leb_le. lia.
      * apply Nat.leb_gt in Hb. symmetry. apply Nat.leb_gt. lia.
    + apply Nat.leb_gt in Ha. rewrite truncate_append_cut by lia.
      f_equal. symmetry. apply Nat.leb_gt. rewrite length_append. lia.
  - by rewrite append_assoc.
Qed.

Lemma put_empty (s : ofstream) : put "" s = s.
Proof.
  unfold put. destruct s as [p o g d l]. cbn [good limit data path is_open].
  destruct g; [| reflexivity]. destruct l as [n|].
  - replace (truncate _ "") with "" by (by destruct (n - _)%nat).
    by rewrite append_empty_r.
  - by rewrite append_empty_r.
Qed.

Lemma inserts_put (text : string) : inserts (put text).
Proof. by exists text. Qed.

Lemma inserts_nothing : inserts (λ s, s).
Proof. exists "". intros s. by rewrite put_empty. Qed.

Lemma inserts_then (F G : ofstream → ofstream) :
  inserts F → inserts G → inserts (λ s, G (F s)).
Proof.
  intros [a Ha] [b Hb]. exists (a +:+ b). intros s. by rewrite Ha, Hb, put_put.
Qed.

Lemma inserts_ext (F G : ofstream → ofstream) :
  (∀ s, F s = G s) → inserts G → inserts F.
Proof. intros Hsame [text H]. exists text. intros s. by rewrite Hsame. Qed.

Lemma inserts_for_loop (n : nat) (body : nat → ofstream → ofstream) :
  (∀ i, (i < n)%nat → inserts (body i)) → inserts (for_loop n body).
Proof.
  intros Hbody. induction n as [|n IH]; simpl.
  - apply inserts_nothing.
  - apply (inserts_then (for_loop n body) (body n)).
    + apply IH. intros i Hi. apply Hbody. lia.
    + apply Hbody. lia.
Qed.

Lemma concat_for_S (n : nat) (text : nat → string) :
  concat_for (S n) text = concat_for n text +:+ text n.
Proof.
  unfold concat_for. rewrite seq_S, foldr_app. simpl.
  generalize (seq 0 n). intros l. induction l as [|i l IH]; simpl.
  - by rewrite append_empty_r.
  - by rewrite IH, append_assoc.
Qed.

(** A loop whose turns each insert a text inserts the texts in turn. *)
Lemma for_loop_put (n : nat) (body : nat → ofstream → ofstream) (text : nat → string) :
  (∀ i s, (i < n)%nat → body i s = put (text i) s) →
  ∀ s, for_loop n body s = put (concat_for n text) s.
Proof.
  intros Hbody. induction n as [|n IH]; intros s; simpl.
  - by rewrite put_empty.
  - rewrite Hbody, IH, put_put, concat_for_S by (intros; try apply Hbody; lia).
    reflexivity.
Qed.

(** The text of a function that only inserts is what it leaves in a stream
    that was empty and whose writes all succeed. *)
Lemma inserts_text (F : ofstream → ofstream) (name : string) (s : ofstream) :
  inserts F → F s = put (data (F (new_stream name))) s.
Proof. intros [text H]. by rewrite !H. Qed.

(** ** The dump writer only ever appends to its stream *)

Lemma select_dump_function_extends (t : DataType) (f : DumpElementFunction) :
  select_dump_function t = Some f → ∀ tensor e fs, extends fs (f tensor e fs).
Proof.
  intros Hsel tensor e fs.
  destruct t; simplify_eq/=; unfold DumpTensorElement;
    apply extends_put_trans, extends_put.
Qed.

Lemma dump_header_starts (tensor : ConstTensor) (fs : ofstream) :
  extends
    (put endl (put (show_unsigned (Z.of_nat (GetNumElements (GetShape (GetInfo tensor)))))
                 (put "# Number of elements " fs)))
    (dump_header tensor fs).
Proof.
  unfold dump_header.
  apply extends_put_trans, extends_put_trans.
  apply (for_loop_invariant (extends _)).
  - do 3 apply extends_put_trans. apply extends_put.
  - intros i s _ Hs. by do 2 apply extends_put_trans.
Qed.

Lemma dump_header_extends (tensor : ConstTensor) (fs : ofstream) :
  extends fs (dump_header tensor fs).
Proof.
  eapply extends_trans; [| apply dump_header_starts].
  do 2 apply extends_put_trans. apply extends_put.
Qed.

Lemma dump_elements_extends (f : DumpElementFunction) (tensor : ConstTensor)
  (numDimensions batch height width channels : nat) (fs : ofstream) :
  (∀ tensor e fs, extends fs (f tensor e fs)) →
  extends fs (dump_elements f tensor numDimensions batch height width channels fs).
Proof.
  intros Hf. unfold dump_elements.
  match goal with
  | |- context [for_loop batch ?body ?init] =>
      assert (extends fs (for_loop batch body init).2) as Hloop
  end.
  { apply (for_loop_invariant (λ st, extends fs st.2)); [apply extends_refl |].
    intros b [e s] _ Hs; simpl in *.
    match goal with
    | |- context [for_loop channels ?body ?init] =>
        assert (extends fs (for_loop channels body init).2) as Hc
    end.
    { apply (for_loop_invariant (λ st, extends fs st.2)).
      - simpl. case_match; [| done].
        by do 3 apply extends_put_trans.
      - intros c [e' s'] _ Hs'; simpl in *.
        match goal with
        | |- context [for_loop height ?body ?init] =>
            assert (extends fs (for_loop height body init).2) as Hh
        end.
        { apply (for_loop_invariant (λ st, extends fs st.2)).
          - simpl. case_match; [| done].
            by do 3 apply extends_put_trans.
          - intros h [e'' s''] _ Hs''; simpl in *.
            match goal with
            | |- context [for_loop width ?body ?init] =>
                assert (extends fs (for_loop width body init).2) as Hw
            end.
            { apply (for_loop_invariant (λ st, extends fs st.2)); [done |].
              intros w [e3 s3] _ Hs3; simpl in *.
              eapply extends_trans; [exact Hs3 | apply Hf]. }
            destruct (for_loop width _ _) as [e3 s3]; simpl in *.
            by apply extends_put_trans. }
        destruct (for_loop height _ _) as [e3 s3]; simpl in *. exact Hh. }
    destruct (for_loop channels _ _) as [e3 s3]; simpl in *.
    by apply extends_put_trans. }
  destruct (for_loop batch _ _) as [e3 s3]; simpl in *.
  by apply extends_put_trans.
Qed.

Lemma dump_body_extends (tensor : ConstTensor) (fs : ofstream) :
  extends fs (dump_body tensor fs).
Proof.
  unfold dump_body.
  destruct (select_dump_function _) as [f|] eqn:Hsel.
  - eapply extends_trans; [apply dump_header_extends |].
    apply dump_elements_extends. eauto using select_dump_function_extends.
  - do 2 apply extends_put_trans. apply extends_put.
Qed.

(** ** The element index of the loop nest in closed form *)

Lemma uint32_spec (a : Z) : ∃ k, uint32 a = a + k * 2 ^ 32.
Proof.
  exists (- (a `div` 2 ^ 32)). unfold uint32.
  pose proof (Z.div_mod a (2 ^ 32) ltac:(lia)). lia.
Qed.

Lemma uint32_congr (a b k : Z) : a = b + k * 2 ^ 32 → uint32 a = uint32 b.
Proof. intros ->. unfold uint32. apply Z_mod_plus_full. Qed.

Lemma for_loop_ext {S : Type} (n : nat) (body body' : nat → S → S) (s : S) :
  (∀ i s, (i < n)%nat → body i s = body' i s) →
  for_loop n body s = for_loop n body' s.
Proof.
  intros H. induction n as [|n IH]; simpl; [reflexivity |].
  rewrite IH by (intros; apply H; lia). apply H. lia.
Qed.

(** A loop that carries an index beside its state: when each turn takes
    the index from [at_turn i] to [at_turn (i + 1)], the index can be read
    off the turn number. *)
Lemma for_loop_track {S : Type} (n : nat) (body : nat → Z * S → Z * S)
  (at_turn : nat → Z) (step : nat → S → S) (e : Z) (s : S) :
  e = at_turn 0%nat →
  (∀ i s, (i < n)%nat → body i (at_turn i, s) = (at_turn (Datatypes.S i), step i s)) →
  for_loop n body (e, s) = (at_turn n, for_loop n step s).
Proof.
  intros -> Hbody. induction n as [|n IH]; simpl; [reflexivity |].
  rewrite IH by (intros; apply Hbody; lia). apply Hbody. lia.
Qed.

Lemma visited_offset_next_column (height width channels b c h w : nat) :
  uint32 (visited_offset height width channels b c h w + Z.of_nat channels)
  = visited_offset height width channels b c h (S w).
Proof.
  unfold visited_offset.
  destruct (uint32_spec (Z.of_nat b * Z.of_nat channels + Z.of_nat c
                         + (Z.of_nat h * Z.of_nat width + Z.of_nat w) * Z.of_nat channels))
    as [k ->].
  apply (uint32_congr _ _ k). lia.
Qed.

Lemma visited_offset_next_row (height width channels b c h : nat) :
  visited_offset height width channels b c h width
  = visited_offset height width channels b c (S h) 0.
Proof. unfold visited_offset. f_equal. lia. Qed.

Lemma visited_offset_next_channel (height width channels b c : nat) :
  uint32 (uint32 (visited_offset height width channels b c height 0
                  - uint32 (Z.of_nat channels - 1))
          - uint32 (uint32 (uint32 (Z.of_nat height * Z.of_nat width) - 1)
                    * Z.of_nat channels))
  = visited_offset height width channels b (S c) 0 0.
Proof.
  unfold visited_offset.
  destruct (uint32_spec (Z.of_nat b * Z.of_nat channels + Z.of_nat c
                         + (Z.of_nat height * Z.of_nat width + Z.of_nat 0)
                           * Z.of_nat channels)) as [k0 ->].
  destruct (uint32_spec (Z.of_nat channels - 1)) as [k1 ->].
  destruct (uint32_spec (Z.of_nat height * Z.of_nat width)) as [k3 ->].
  destruct (uint32_spec (Z.of_nat height * Z.of_nat width + k3 * 2 ^ 32 - 1)) as [k4 ->].
  match goal with
  | |- uint32 (uint32 ?x - uint32 ?y) = _ =>
      destruct (uint32_spec x) as [k2 ->]; destruct (uint32_spec y) as [k5 ->]
  end.
  apply (uint32_congr _ _ (k0 - k1 + k2 - (k3 + k4) * Z.of_nat channels - k5)).
  rewrite Nat2Z.inj_succ. change (Z.of_nat 0) with 0. ring.
Qed.

Lemma visited_offset_next_batch (height width channels b : nat) :
  visited_offset height width channels b channels 0 0
  = visited_offset height width channels (S b) 0 0 0.
Proof. unfold visited_offset. f_equal. lia. Qed.

(** What the loop nest does: at batch [b], channel [c], row [h] and column
    [w] it hands the element function the index
    [b*channels + c + (h*width + w)*channels] (modulo 2^32). *)
Theorem dump_elements_visited_offsets (f : DumpElementFunction) (tensor : ConstTensor)
  (numDimensions batch height width channels : nat) (fs : ofstream) :
  dump_elements f tensor numDimensions batch height width channels fs
  = dump_grid (visited_offset height width channels) f tensor
      numDimensions batch height width channels fs.
Proof.
  unfold dump_elements, dump_grid.
  erewrite (for_loop_track batch _ (λ b, visited_offset height width channels b 0 0 0));
    [reflexivity | reflexivity |].
  intros b s Hb. cbv beta iota.
  erewrite (for_loop_track channels _ (λ c, visited_offset height width channels b c 0 0));
    [by rewrite visited_offset_next_batch | reflexivity |].
  intros c s' Hc. cbv beta iota.
  erewrite (for_loop_track height _ (λ h, visited_offset height width channels b c h 0));
    [| reflexivity |].
  - apply Nat.ltb_lt in Hc. rewrite Hc. by rewrite visited_offset_next_channel.
  - intros h s'' Hh. cbv beta iota.
    erewrite (for_loop_track width _ (λ w, visited_offset height width channels b c h w));
      [by rewrite visited_offset_next_row | reflexivity |].
    intros w s3 Hw. cbv beta iota. by rewrite visited_offset_next_column.
Qed.

Lemma dump_body_supported (tensor : ConstTensor) (f : DumpElementFunction) (fs : ofstream) :
  select_dump_function (GetDataType (GetInfo tensor)) = Some f →
  dump_body tensor fs
  = dump_elements f tensor (GetNumDimensions (GetShape (GetInfo tensor)))
      (dump_batch (GetShape (GetInfo tensor))) (dump_height (GetShape (GetInfo tensor)))
      (dump_width (GetShape (GetInfo tensor))) (dump_channels (GetShape (GetInfo tensor)))
      (dump_header tensor fs).
Proof. intros Hsel. unfold dump_body. by rewrite Hsel. Qed.

Lemma dump_grid_ext (offset offset' : nat → nat → nat → nat → Z)
  (f f' : DumpElementFunction) (tensor tensor' : ConstTensor)
  (numDimensions batch height width channels : nat) (fs : ofstream) :
  (∀ b c h w s, (b < batch)%nat → (c < channels)%nat → (h < height)%nat → (w < width)%nat →
                f tensor (offset b c h w) s = f' tensor' (offset' b c h w) s) →
  dump_grid offset f tensor numDimensions batch height width channels fs
  = dump_grid offset' f' tensor' numDimensions batch height width channels fs.
Proof.
  intros Hsame. unfold dump_grid. f_equal.
  apply for_loop_ext. intros b s Hb. f_equal.
  apply for_loop_ext. intros c s' Hc.
  apply for_loop_ext. intros h s'' Hh. f_equal.
  apply for_loop_ext. intros w s3 Hw. by apply Hsame.
Qed.

(** ** The dump writer does nothing but insert *)

Ltac solve_inserts :=
  repeat first
    [ apply inserts_put
    | apply inserts_nothing
    | solve [auto]
    | apply inserts_for_loop; intros
    | match goal with
      | |- inserts (λ s, put ?t (@?F s)) => apply (inserts_then F (put t))
      | |- inserts (λ s, for_loop ?n ?body (@?F s)) =>
          apply (inserts_then F (for_loop n body))
      | |- inserts (λ s, if ?c then @?F s else @?G s) => destruct c
      end ].

Lemma select_dump_function_inserts (t : DataType) (f : DumpElementFunction) :
  select_dump_function t = Some f → ∀ tensor e, inserts (f tensor e).
Proof.
  intros Hsel tensor e.
  destruct t; simplify_eq/=; unfold DumpTensorElement; cbv zeta; solve_inserts.
Qed.

Lemma dump_header_inserts (tensor : ConstTensor) : inserts (dump_header tensor).
Proof. unfold dump_header. cbv zeta. solve_inserts. Qed.

Lemma dump_grid_inserts (offset : nat → nat → nat → nat → Z) (f : DumpElementFunction)
  (tensor : ConstTensor) (numDimensions batch height width channels : nat) :
  (∀ tensor e, inserts (f tensor e)) →
  inserts (dump_grid offset f tensor numDimensions batch height width channels).
Proof. intros Hf. unfold dump_grid. cbv zeta. solve_inserts. Qed.

(** The loop nest over an element function that inserts a text per element
    inserts the lines of the grid of these texts. *)
Lemma dump_grid_text (element : Z → string) (offset : nat → nat → nat → nat → Z)
  (tensor : ConstTensor) (numDimensions batch height width channels : nat)
  (s : ofstream) :
  dump_grid offset (λ _ e, put (element e)) tensor numDimensions batch height width
    channels s
  = put (grid_text element offset numDimensions batch height width channels) s.
Proof.
  unfold dump_grid, grid_text. cbv zeta.
  rewrite (for_loop_put batch _
             (λ b,
                (if (4 <=? numDimensions)%nat
                 then "# Batch " +:+ show_unsigned (Z.of_nat b) +:+ endl else "")
                +:+ concat_for channels
                      (λ c,
                         (if (3 <=? numDimensions)%nat
                          then "# Channel " +:+ show_unsigned (Z.of_nat c) +:+ endl
                          else "")
                         +:+ concat_for height
                               (λ h, concat_for width (λ w, element (offset b c h w))
                                     +:+ endl))
                +:+ endl)); [by rewrite put_put |].
  intros b s1 Hb.
  rewrite (for_loop_put channels _
             (λ c,
                (if (3 <=? numDimensions)%nat
                 then "# Channel " +:+ show_unsigned (Z.of_nat c) +:+ endl else "")
                +:+ concat_for height
                      (λ h, concat_for width (λ w, element (offset b c h w)) +:+ endl))).
  - destruct (4 <=? numDimensions)%nat; rewrite !put_put; f_equal;
      by rewrite ?append_assoc.
  - intros c s2 Hc.
    rewrite (for_loop_put height _
               (λ h, concat_for width (λ w, element (offset b c h w)) +:+ endl)).
    + destruct (3 <=? numDimensions)%nat; rewrite ?put_put; f_equal;
        by rewrite ?append_assoc.
    + intros h s3 Hh.
      rewrite (for_loop_put width _ (λ w, element (offset b c h w))) by done.
      by rewrite put_put.
Qed.

Lemma dump_body_inserts (tensor : ConstTensor) : inserts (dump_body tensor).
Proof.
  unfold dump_body. destruct (select_dump_function _) as [f|] eqn:Hsel; cbv zeta.
  - eapply inserts_ext; [intros s; apply dump_elements_visited_offsets |].
    apply (inserts_then (dump_header tensor) (dump_grid _ f tensor _ _ _ _ _)).
    + apply dump_header_inserts.
    + apply dump_grid_inserts. eauto using select_dump_function_inserts.
  - solve_inserts.
Qed.

(** The text of a dump is the same whatever the file is called. *)
Lemma dump_text_name (tensor : ConstTensor) (name : string) :
  data (dump_body tensor (new_stream name)) = dump_text tensor.
Proof.
  destruct (dump_body_inserts tensor) as [text H]. unfold dump_text. by rewrite !H.
Qed.

Lemma dump_body_put (tensor : ConstTensor) (s : ofstream) :
  dump_body tensor s = put (dump_text tensor) s.
Proof. apply inserts_text, dump_body_inserts. Qed.

Lemma put_stream_on (text fileName : string) (limit : option nat) :
  put text (stream_on fileName limit)
  = {| path := fileName; is_open := true; good := fits limit text;
       data := accepted limit text; limit := limit |}.
Proof.
  destruct limit as [n|]; [| reflexivity].
  unfold put, stream_on. cbn [good limit data path is_open String.length].
  by rewrite Nat.sub_0_r.
Qed.

Lemma accepted_fits (limit : option nat) (text : string) :
  fits limit text = true → accepted limit text = text.
Proof.
  destruct limit as [n|]; [| reflexivity].
  intros H%Nat.leb_le. by apply truncate_all.
Qed.

(** What a call leaves behind when the file cannot be opened, when it can,
    and when it can and takes the whole dump. *)
Lemma DumpTensor_not_opened (dumpDir requestName tensorName : string)
  (tensor : ConstTensor) (w : World) :
  let fileName := dump_file_name dumpDir requestName tensorName in
  can_open w fileName = false →
  DumpTensor dumpDir requestName tensorName tensor w
  = (Returned tt, ALOGW ("Could not open file " +:+ fileName +:+ " for writing") w).
Proof.
  intros fileName Hopen. unfold DumpTensor, open.
  fold fileName. by rewrite Hopen.
Qed.

Lemma DumpTensor_opened (dumpDir requestName tensorName : string)
  (tensor : ConstTensor) (w : World) :
  let fileName := dump_file_name dumpDir requestName tensorName in
  can_open w fileName = true →
  DumpTensor dumpDir requestName tensorName tensor w
  = (Returned tt,
     {| files := <[fileName := accepted (capacity w fileName) (dump_text tensor)]> (files w);
        can_open := can_open w;
        capacity := capacity w;
        log := if room_for w fileName (dump_text tensor)
               then log w
               else log w ++ [Warning ("An error occurred when writing to file "
                                       +:+ fileName)] |}).
Proof.
  intros fileName Hopen. unfold DumpTensor, open.
  fold fileName. rewrite Hopen. cbn [good negb].
  fold (stream_on fileName (capacity w fileName)).
  rewrite dump_body_put, put_stream_on. cbn [good]. unfold room_for, close.
  destruct (fits _ _); cbn [negb is_open path data ALOGW files can_open capacity log];
    by rewrite insert_insert_eq.
Qed.

Lemma DumpTensor_file (dumpDir requestName tensorName : string)
  (tensor : ConstTensor) (w : World) (text : string) :
  let fileName := dump_file_name dumpDir requestName tensorName in
  can_open w fileName = true →
  data (dump_body tensor (new_stream fileName)) = text →
  ∃ w', DumpTensor dumpDir requestName tensorName tensor w = (Returned tt, w')
        ∧ files w' !! fileName = Some (accepted (capacity w fileName) text)
        ∧ log w'
          = if room_for w fileName text
            then log w
            else log w ++ [Warning ("An error occurred when writing to file "
                                    +:+ fileName)].
Proof.
  intros fileName Hopen <-. eexists. split; [by apply DumpTensor_opened |].
  fold fileName. rewrite dump_text_name. cbn [files log].
  by rewrite lookup_insert_eq.
Qed.

Lemma DumpTensor_written (dumpDir requestName tensorName : string)
  (tensor : ConstTensor) (w : World) :
  let fileName := dump_file_name dumpDir requestName tensorName in
  can_open w fileName = true →
  room_for w fileName (dump_text tensor) = true →
  DumpTensor dumpDir requestName tensorName tensor w
  = (Returned tt,
     {| files := <[fileName := data (dump_body tensor (new_stream fileName))]> (files w);
        can_open := can_open w;
        capacity := capacity w;
        log := log w |}).
Proof.
  intros fileName Hopen Hroom.
  rewrite (DumpTensor_opened _ _ _ _ _ Hopen). fold fileName. rewrite Hroom.
  by rewrite (accepted_fits _ _ Hroom), dump_text_name.
Qed.

(** ** The dump writer: claims *)

Lemma supported_type_cases (t : DataType) :
  t ∈ [Float32; QuantisedAsymm8; Signed32]
  ↔ t = Float32 ∨ t = QuantisedAsymm8 ∨ t = Signed32.
Proof.
  rewrite !elem_of_cons, elem_of_nil.
  split; [intros [? | [? | [? | []]]]; auto | intros [? | [? | ?]]; auto].
Qed.

(** C5: a dump of a tensor of the 8-bit quantised type whose file opens
    leaves in the file the header and then the lines of the grid in which
    every element is the byte at the element index, widened to an unsigned
    integer between 0 and 255 and written as that number's decimal digits,
    and nothing but digits, followed by a comma; the file holds this text
    whole, or as much of it as the file takes. *)
Theorem DumpTensor_quantised_element_is_a_number
  (dumpDir requestName tensorName : string) (tensor : ConstTensor) (w : World) :
  GetDataType (GetInfo tensor) = QuantisedAsymm8 →
  can_open w (dump_file_name dumpDir requestName tensorName) = true →
  let shape := GetShape (GetInfo tensor) in
  let fileName := dump_file_name dumpDir requestName tensorName in
  let value (e : Z) := Z.of_N (Byte.to_N (GetMemoryArea tensor (Z.to_nat e))) in
  ∃ w', DumpTensor dumpDir requestName tensorName tensor w = (Returned tt, w')
        ∧ files w' !! fileName
          = Some (accepted (capacity w fileName)
                    (data (dump_header tensor (new_stream fileName))
                     +:+ grid_text (λ e, show_unsigned (value e) +:+ ",")
                           (visited_offset (dump_height shape) (dump_width shape)
                              (dump_channels shape))
                           (GetNumDimensions shape) (dump_batch shape)
                           (dump_height shape) (dump_width shape) (dump_channels shape)))
        ∧ ∀ e, 0 ≤ value e ≤ 255
               ∧ string_forall is_digit (show_unsigned (value e)) = true.
Proof.
  intros Htype Hopen shape fileName value.
  edestruct (DumpTensor_file dumpDir requestName tensorName tensor w)
    as (w' & Hrun & Hfile & _); [exact Hopen | | exists w'; split; [exact Hrun |]].
  - rewrite (dump_body_supported tensor (DumpTensorElement uint8_t uint32_t))
      by (by rewrite Htype).
    rewrite dump_elements_visited_offsets.
    rewrite (dump_grid_ext _ (visited_offset (dump_height shape) (dump_width shape)
                               (dump_channels shape))
               _ (λ _ e, put (show_unsigned (value e) +:+ ",")) tensor tensor).
    + rewrite dump_grid_text.
      destruct (dump_header_extends tensor
                  (new_stream (dump_file_name dumpDir requestName tensorName)))
        as (_ & _ & Hlimit & Hgood & _).
      rewrite put_good by auto. reflexivity.
    + intros b c h w0 s _ _ _ _.
      unfold DumpTensorElement, value. cbv zeta. by rewrite put_put.
  - split; [exact Hfile |].
    intros e. split; [| apply show_unsigned_digits].
    unfold value. pose proof (Byte.to_N_bounded (GetMemoryArea tensor (Z.to_nat e))). lia.
Qed.

(** C6: for a tensor whose data type is none of the three supported ones,
    a dump whose file opens leaves exactly one line in the file, the
    diagnostic with the numeric code of the type, and no element rows; the
    call returns and, the line written, logs nothing.  (A file that does not
    take the whole line is left with the part it takes, and the write-error
    warning is logged.) *)
Theorem DumpTensor_unsupported_type
  (dumpDir requestName tensorName : string) (tensor : ConstTensor) (w : World) :
  GetDataType (GetInfo tensor) ∉ [Float32; QuantisedAsymm8; Signed32] →
  can_open w (dump_file_name dumpDir requestName tensorName) = true →
  let fileName := dump_file_name dumpDir requestName tensorName in
  let line := "Cannot dump tensor elements: Unsupported data type "
              +:+ show_unsigned (uint32 (DataType_value (GetDataType (GetInfo tensor)))) in
  ∃ w', DumpTensor dumpDir requestName tensorName tensor w = (Returned tt, w') ∧
        files w' !! fileName = Some (accepted (capacity w fileName) (line +:+ endl)) ∧
        count_newlines line = 0%nat ∧
        count_newlines (line +:+ endl) = 1%nat ∧
        log w' = (if room_for w fileName (line +:+ endl)
                  then log w
                  else log w ++ [Warning ("An error occurred when writing to file "
                                          +:+ fileName)]).
Proof.
  intros Htype Hopen fileName line.
  assert (count_newlines line = 0%nat) as Hline.
  { unfold line. rewrite count_newlines_append.
    by rewrite (digits_no_newline _ (show_unsigned_digits _)). }
  edestruct (DumpTensor_file dumpDir requestName tensorName tensor w (line +:+ endl))
    as (w' & Hrun & Hfile & Hlog); [exact Hopen | |].
  - unfold dump_body.
    destruct (GetDataType (GetInfo tensor)) eqn:E; simpl;
      try (exfalso; apply Htype, supported_type_cases; tauto).
    unfold line. by rewrite append_assoc.
  - exists w'. split; [exact Hrun |]. split; [exact Hfile |].
    split; [exact Hline |]. split; [| exact Hlog].
    rewrite count_newlines_append, Hline. reflexivity.
Qed.

(** C7: when the dump file cannot be opened, the call returns normally, no
    file is created or changed, and the log gains one warning. *)
Theorem DumpTensor_open_failure
  (dumpDir requestName tensorName : string) (tensor : ConstTensor) (w : World) :
  can_open w (dump_file_name dumpDir requestName tensorName) = false →
  let fileName := dump_file_name dumpDir requestName tensorName in
  ∃ w', DumpTensor dumpDir requestName tensorName tensor w = (Returned tt, w') ∧
        files w' = files w ∧
        log w' = log w ++ [Warning ("Could not open file " +:+ fileName +:+ " for writing")].
Proof.
  intros Hopen fileName. eexists. split; [by apply DumpTensor_not_opened |].
  split; reflexivity.
Qed.

(** C8: for a tensor of a supported type whose dump file opens, the text
    of the dump starts with the line "# Number of elements N" where N is the
    product of the dimension sizes; the file holds that text whole, or as
    much of it as the file takes. *)
Theorem DumpTensor_header_element_count
  (dumpDir requestName tensorName : string) (tensor : ConstTensor) (w : World) :
  GetDataType (GetInfo tensor) ∈ [Float32; QuantisedAsymm8; Signed32] →
  can_open w (dump_file_name dumpDir requestName tensorName) = true →
  let fileName := dump_file_name dumpDir requestName tensorName in
  ∃ w' rest,
    DumpTensor dumpDir requestName tensorName tensor w = (Returned tt, w') ∧
    files w' !! fileName
    = Some (accepted (capacity w fileName)
              ("# Number of elements "
               +:+ show_unsigned (Z.of_nat (foldr Nat.mul 1%nat (GetShape (GetInfo tensor))))
               +:+ endl +:+ rest)).
Proof.
  intros Htype Hopen fileName.
  assert (∃ f, select_dump_function (GetDataType (GetInfo tensor)) = Some f) as [f Hsel].
  { apply supported_type_cases in Htype as [-> | [-> | ->]]; simpl; eauto. }
  pose proof (dump_header_starts tensor (new_stream fileName)) as Hhead.
  pose proof (dump_elements_extends f tensor) as Hrest.
  assert (∃ rest, data (dump_body tensor (new_stream fileName))
                  = "# Number of elements "
                    +:+ show_unsigned (Z.of_nat (GetNumElements (GetShape (GetInfo tensor))))
                    +:+ endl +:+ rest) as [rest Hdata].
  { unfold dump_body. rewrite Hsel.
    match goal with
    | |- context [dump_elements f tensor ?n ?b ?h ?wd ?c ?s] =>
        destruct (extends_trans _ _ _ Hhead
                    (Hrest n b h wd c s (select_dump_function_extends _ _ Hsel)))
          as (_ & _ & _ & _ & rest & Hd)
    end.
    exists rest. rewrite Hd. simpl. by rewrite !append_assoc. }
  destruct (DumpTensor_file dumpDir requestName tensorName tensor w _ Hopen Hdata)
    as (w' & Hrun & Hfile & _).
  exists w', rest. split; [exact Hrun | exact Hfile].
Qed.

(** C2: the scenario of shape [1,2,2,3] with the floats 0..11, on a
    standard library that writes these floats as 0..11: the text of the dump
    is the 12-element header, one batch block and three channel blocks whose
    2x2 grids are [[0,3],[6,9]], [[1,4],[7,10]] and [[2,5],[8,11]]; a file
    that opens holds it whole, or as much of it as the file takes. *)
Theorem DumpTensor_sequential_floats
  (dumpDir requestName tensorName : string) (w : World) :
  (∀ n, (n < 12)%nat → show_float (float32_bits_of_nat n) = show_unsigned (Z.of_nat n)) →
  can_open w (dump_file_name dumpDir requestName tensorName) = true →
  let fileName := dump_file_name dumpDir requestName tensorName in
  ∃ w', DumpTensor dumpDir requestName tensorName sequential_float_tensor w
        = (Returned tt, w') ∧
        files w' !! fileName
        = Some (accepted (capacity w fileName)
                  (lines [ "# Number of elements 12";
                           "# Dimensions (BHWC) [1,2,2,3]";
                           "# Batch 0";
                           "# Channel 0"; "0,3,"; "6,9,";
                           "# Channel 1"; "1,4,"; "7,10,";
                           "# Channel 2"; "2,5,"; "8,11,";
                           ""; "" ])).
Proof.
  intros Hshow Hopen fileName.
  edestruct (DumpTensor_file dumpDir requestName tensorName sequential_float_tensor w)
    as (w' & Hrun & Hfile & _); [exact Hopen | | exists w'; split; [exact Hrun | exact Hfile]].
  pose proof (Hshow 0%nat ltac:(lia)) as H0; pose proof (Hshow 1%nat ltac:(lia)) as H1;
  pose proof (Hshow 2%nat ltac:(lia)) as H2; pose proof (Hshow 3%nat ltac:(lia)) as H3;
  pose proof (Hshow 4%nat ltac:(lia)) as H4; pose proof (Hshow 5%nat ltac:(lia)) as H5;
  pose proof (Hshow 6%nat ltac:(lia)) as H6; pose proof (Hshow 7%nat ltac:(lia)) as H7;
  pose proof (Hshow 8%nat ltac:(lia)) as H8; pose proof (Hshow 9%nat ltac:(lia)) as H9;
  pose proof (Hshow 10%nat ltac:(lia)) as H10; pose proof (Hshow 11%nat ltac:(lia)) as H11.
  clear Hshow Hopen.
  vm_compute in H0, H1, H2, H3, H4, H5, H6, H7, H8, H9, H10, H11.
  vm_compute.
  rewrite H0, H1, H2, H3, H4, H5, H6, H7, H8, H9, H10, H11.
  reflexivity.
Qed.

(** C1 (the code departs from it): on shape [2,1,2,1] with the bytes 10, 20,
    30, 40 the second batch block reads the elements at offsets 1 and 2 and
    prints 20 and 30, where the offsets ((b*height + h)*width + w)*channels
    + c are 2 and 3 and the elements 30 and 40. *)
Theorem DumpTensor_second_batch_reads_offsets_1_2 :
  data (dump_elements index_probe two_batch_tensor 4 2 1 2 1 (new_stream ""))
  = lines [ "# Batch 0"; "# Channel 0"; "0 1 "; "";
            "# Batch 1"; "# Channel 0"; "1 2 "; ""; "" ]
  ∧ ∃ w', DumpTensor "/data/dump" "request" "input" two_batch_tensor empty_world
          = (Returned tt, w')
          ∧ files w' !! "/data/dump/request_input.dump"
            = Some (lines [ "# Number of elements 4";
                            "# Dimensions (BHWC) [2,1,2,1]";
                            "# Batch 0"; "# Channel 0"; "10,20,"; "";
                            "# Batch 1"; "# Channel 0"; "20,30,"; ""; "" ]).
Proof.
  split; [vm_compute; reflexivity |].
  eexists. split; [by apply DumpTensor_written |]. cbn [files].
  change (dump_file_name "/data/dump" "request" "input")
    with "/data/dump/request_input.dump".
  rewrite lookup_insert_eq. vm_compute. reflexivity.
Qed.

(** Without the widening cast the stream would be handed a character: the
    byte 10 would come out as a line break. *)
Lemma DumpTensorElement_without_widening :
  data (DumpTensorElement uint8_t uint8_t two_batch_tensor 0 (new_stream ""))
  = endl +:+ ",".
Proof. reflexivity. Qed.

(** ** The element index and the row-major offset *)

(** In the first batch, and as long as the tensor has fewer than 2^32
    elements, that index is the row-major offset of the grid position. *)
Lemma visited_offset_first_batch (height width channels c h w : nat) :
  (c < channels)%nat → (h < height)%nat → (w < width)%nat →
  Z.of_nat (height * width * channels) < 2 ^ 32 →
  visited_offset height width channels 0 c h w
  = bhwc_offset height width channels 0 c h w.
Proof.
  intros Hc Hh Hw Hsize. unfold visited_offset, bhwc_offset, uint32.
  change (Z.of_nat 0) with 0.
  assert (h * width + w + 1 ≤ height * width)%nat as Hrow by nia.
  assert ((h * width + w + 1) * channels ≤ height * width * channels)%nat as Hcell
    by (by apply Nat.mul_le_mono_r).
  rewrite Z.mod_small; [ring | nia].
Qed.

(** From the second batch on it is not: at the start of batch 1 the loop
    nest is at index [channels], the row-major offset is
    [height*width*channels]. *)
Lemma visited_offset_second_batch (height width channels : nat) :
  Z.of_nat (height * width * channels) < 2 ^ 32 →
  (1 < height * width)%nat → (0 < channels)%nat →
  visited_offset height width channels 1 0 0 0
  ≠ bhwc_offset height width channels 1 0 0 0.
Proof.
  intros Hsize Hhw Hc. unfold visited_offset, bhwc_offset, uint32.
  change (Z.of_nat 0) with 0. change (Z.of_nat 1) with 1.
  assert (2 * channels ≤ height * width * channels)%nat as Hcell
    by (apply Nat.mul_le_mono_r; lia).
  rewrite Z.mod_small by nia. nia.
Qed.

(** ** Swizzling: claims *)

Lemma ALOGW_changes_world (text : string) (w : World) : ALOGW text w ≠ w.
Proof.
  intros H. apply (f_equal log) in H. simpl in H.
  apply (f_equal length) in H. rewrite length_app in H. simpl in H. lia.
Qed.

(** C3, as the code has it: on a rank-4 tensor the call ends on its
    unknown-type path, leaving the destination untouched, exactly when the
    data type is neither Float32 nor QuantisedAsymm8; for these two types it
    returns with the permuted copy of 4-byte, respectively 1-byte,
    elements in the destination and logs nothing. *)
Theorem SwizzleAndroidNn4dTensorToArmNn_supported_types
  (tensor : TensorInfo) (input output : Memory) (mappings : PermutationVector) (w : World) :
  GetNumDimensions (GetShape tensor) = 4%nat →
  (swizzle_rejects tensor input output mappings w
   ↔ GetDataType tensor ∉ [Float32; QuantisedAsymm8])
  ∧ (GetDataType tensor = Float32 →
     SwizzleAndroidNn4dTensorToArmNn tensor input output mappings w
     = (Returned tt,
        SwizzleAndroidNn4dTensorToArmNn_typed float (GetShape tensor) input output mappings,
        w))
  ∧ (GetDataType tensor = QuantisedAsymm8 →
     SwizzleAndroidNn4dTensorToArmNn tensor input output mappings w
     = (Returned tt,
        SwizzleAndroidNn4dTensorToArmNn_typed uint8_t (GetShape tensor) input output mappings,
        w)).
Proof.
  intros Hrank. unfold swizzle_rejects, SwizzleAndroidNn4dTensorToArmNn.
  rewrite Hrank. simpl. rewrite andb_false_r.
  split; [| split; intros ->; reflexivity].
  rewrite !not_elem_of_cons.
  destruct (GetDataType tensor); split;
    try (intros H; injection H as _ _ H; symmetry in H; by apply ALOGW_changes_world in H);
    try (intros (? & ? & _); congruence);
    try reflexivity;
    intros _; repeat split; try discriminate; apply not_elem_of_nil.
Qed.

(** ** Row-major offsets and multi-indices *)

Lemma flat_offset_bound (shape : TensorShape) (index : list nat) :
  Forall2 lt index shape → (flat_offset shape index < GetNumElements shape)%nat.
Proof.
  intros H. induction H as [|i d index shape Hid _ IH]; simpl; [lia |].
  unfold GetNumElements in *. nia.
Qed.

Lemma multi_index_valid (shape : TensorShape) (k : nat) :
  (k < GetNumElements shape)%nat → Forall2 lt (multi_index shape k) shape.
Proof.
  revert k. induction shape as [|d shape IH]; intros k Hk; simpl; [constructor |].
  change (GetNumElements (d :: shape)) with (d * GetNumElements shape)%nat in Hk.
  assert (GetNumElements shape ≠ 0)%nat as Hpos by nia.
  constructor.
  - apply Nat.Div0.div_lt_upper_bound. lia.
  - apply IH. by apply Nat.mod_upper_bound.
Qed.

Lemma flat_offset_multi_index (shape : TensorShape) (k : nat) :
  (k < GetNumElements shape)%nat → flat_offset shape (multi_index shape k) = k.
Proof.
  revert k. induction shape as [|d shape IH]; intros k Hk; simpl.
  - change (GetNumElements []) with 1%nat in Hk. lia.
  - change (GetNumElements (d :: shape)) with (d * GetNumElements shape)%nat in Hk.
    assert (GetNumElements shape ≠ 0)%nat as Hpos by nia.
    rewrite IH by (by apply Nat.mod_upper_bound).
    pose proof (Nat.div_mod_eq k (GetNumElements shape)). lia.
Qed.

Lemma multi_index_flat_offset (shape : TensorShape) (index : list nat) :
  Forall2 lt index shape → multi_index shape (flat_offset shape index) = index.
Proof.
  intros H. induction H as [|i d index shape Hid Hrest IH]; simpl; [reflexivity |].
  pose proof (flat_offset_bound shape index Hrest) as Hlt.
  rewrite Nat.div_add_l by lia. rewrite Nat.div_small by exact Hlt.
  rewrite (Nat.add_comm (i * _)), Nat.Div0.mod_add, Nat.mod_small by exact Hlt.
  by rewrite IH, Nat.add_0_r.
Qed.

(** ** Permutation vectors *)

Lemma index_of_lookup (x : nat) (l : list nat) : x ∈ l → l !! index_of x l = Some x.
Proof.
  induction l as [|y l IH]; [by intros ?%elem_of_nil |].
  intros Hin. simpl. case_decide as Hxy; [by subst |].
  apply elem_of_cons in Hin as [? | Hin]; [done |]. by apply IH.
Qed.

Lemma index_of_unique (x i : nat) (l : list nat) :
  NoDup l → l !! i = Some x → index_of x l = i.
Proof.
  intros Hnd. revert i. induction Hnd as [|y l Hy Hnd IH]; intros i Hi; [done |].
  simpl. destruct i as [|i]; simpl in Hi.
  - simplify_eq. by rewrite decide_True.
  - rewrite decide_False.
    + f_equal. by apply IH.
    + intros ->. apply Hy. by eapply list_elem_of_lookup_2.
Qed.

Lemma map_nth_seq (xs : list nat) :
  map (λ j, nth j xs 0%nat) (seq 0 (length xs)) = xs.
Proof.
  apply list_eq. intros i. rewrite list_lookup_fmap.
  destruct (decide (i < length xs)%nat) as [Hi | Hi].
  - rewrite lookup_seq_lt by done. simpl.
    destruct (lookup_lt_is_Some_2 xs i Hi) as [x Hx].
    rewrite Hx. f_equal. by apply nth_lookup_Some with (d := 0%nat).
  - rewrite lookup_seq_ge by lia. by rewrite lookup_ge_None_2 by lia.
Qed.

Section PermutationVectors.

Variable n : nat.
Variable P : PermutationVector.
Hypothesis P_permutation : P ≡ₚ seq 0 n.

Lemma permutation_length : length P = n.
Proof. by rewrite P_permutation, length_seq. Qed.

Lemma permutation_NoDup : NoDup P.
Proof. rewrite P_permutation. apply NoDup_seq. Qed.

Lemma permutation_elem (j : nat) : j ∈ P ↔ (j < n)%nat.
Proof. rewrite P_permutation, elem_of_seq. lia. Qed.

Lemma permutation_index_of (j : nat) : (j < n)%nat → P !! index_of j P = Some j.
Proof. intros Hj. by apply index_of_lookup, permutation_elem. Qed.

Lemma inverse_lookup (i p : nat) : P !! i = Some p → inverse P !! p = Some i.
Proof.
  intros Hi. unfold inverse. rewrite list_lookup_fmap, permutation_length.
  assert (p < n)%nat as Hp by (apply permutation_elem; by eapply list_elem_of_lookup_2).
  rewrite lookup_seq_lt by done. simpl. f_equal.
  by apply index_of_unique; [apply permutation_NoDup |].
Qed.

Lemma inverse_permutation : inverse P ≡ₚ seq 0 n.
Proof.
  apply NoDup_Permutation; [| apply NoDup_seq |].
  - unfold inverse. rewrite permutation_length.
    apply NoDup_fmap_2_strong; [| apply NoDup_seq].
    intros j1 j2 [_ Hj1]%elem_of_seq [_ Hj2]%elem_of_seq Heq. simpl in *.
    pose proof (permutation_index_of j1 Hj1) as H1.
    pose proof (permutation_index_of j2 Hj2) as H2.
    rewrite Heq in H1. congruence.
  - intros i. rewrite elem_of_seq. split.
    + unfold inverse. intros (j & -> & [_ Hj]%elem_of_seq)%list_elem_of_fmap.
      rewrite permutation_length in Hj. simpl in Hj.
      pose proof (permutation_index_of j Hj) as H%lookup_lt_Some.
      rewrite permutation_length in H. lia.
    + intros [_ Hi]. simpl in Hi. rewrite <- permutation_length in Hi.
      destruct (lookup_lt_is_Some_2 P i Hi) as [p Hp].
      eapply list_elem_of_lookup_2, inverse_lookup, Hp.
Qed.

Lemma permute_tuple_inverse (xs : list nat) :
  length xs = n → permute_tuple (inverse P) (permute_tuple P xs) = xs.
Proof.
  intros Hlen. unfold permute_tuple at 1. unfold inverse.
  rewrite map_map, permutation_length, <- Hlen.
  rewrite <- (map_nth_seq xs) at 2. apply map_ext_in.
  intros j [_ Hj]%in_seq. simpl in Hj. rewrite Hlen in Hj.
  rewrite nth_lookup. unfold permute_tuple.
  change (map ?f P) with (f <$> P). rewrite list_lookup_fmap.
  by rewrite (permutation_index_of j Hj).
Qed.

Lemma permute_tuple_valid (index shape : list nat) :
  length shape = n → Forall2 lt index shape →
  Forall2 lt (permute_tuple P index) (permute_tuple P shape).
Proof.
  intros Hlen Hvalid. unfold permute_tuple.
  apply Forall2_fmap, Forall_Forall2_diag, Forall_forall.
  intros p Hp%list_elem_of_In%permutation_elem. rewrite <- Hlen in Hp.
  destruct (lookup_lt_is_Some_2 shape p Hp) as [d Hd].
  destruct (Forall2_lookup_r _ _ _ _ _ Hvalid Hd) as (i & Hi & Hid).
  by rewrite (nth_lookup_Some _ _ _ _ Hi), (nth_lookup_Some _ _ _ _ Hd).
Qed.

Lemma Permuted_permutation (shape : TensorShape) :
  length shape = n → Permuted shape P = permute_tuple P shape.
Proof.
  intros Hlen. pose proof permutation_length as H.
  unfold Permuted. destruct P eqn:E; [| reflexivity].
  simpl in H. destruct shape; [reflexivity | simpl in Hlen; lia].
Qed.

End PermutationVectors.

Lemma inverse_inverse (n : nat) (P : PermutationVector) :
  P ≡ₚ seq 0 n → inverse (inverse P) = P.
Proof.
  intros HP. pose proof (inverse_permutation n P HP) as HQ.
  apply list_eq. intros i. unfold inverse at 1.
  rewrite list_lookup_fmap, (permutation_length n _ HQ).
  destruct (decide (i < n)%nat) as [Hi | Hi].
  - rewrite lookup_seq_lt by done. simpl.
    rewrite <- (permutation_length n P HP) in Hi.
    destruct (lookup_lt_is_Some_2 P i Hi) as [p Hp]. rewrite Hp. f_equal.
    apply index_of_unique; [by eapply permutation_NoDup |].
    by eapply inverse_lookup.
  - rewrite lookup_seq_ge by lia. simpl.
    rewrite lookup_ge_None_2; [done |]. rewrite (permutation_length n P HP). lia.
Qed.

(** ** Typed views: a stored object is read back, other objects stay *)

Lemma load_le_ext (width : nat) (m m' : Memory) (o o' : nat) :
  (∀ j, (j < width)%nat → m (o + j)%nat = m' (o' + j)%nat) →
  load_le width m o = load_le width m' o'.
Proof.
  revert o o'. induction width as [|width IH]; intros o o' H; simpl; [reflexivity |].
  rewrite (IH (S o) (S o')).
  - specialize (H 0%nat ltac:(lia)). rewrite !Nat.add_0_r in H. by rewrite H.
  - intros j Hj. specialize (H (S j) ltac:(lia)).
    by replace (S o + j)%nat with (o + S j)%nat by lia;
       replace (S o' + j)%nat with (o' + S j)%nat by lia.
Qed.

Lemma bytes_le_load_le (width : nat) (m : Memory) (o : nat) :
  bytes_le width (load_le width m o) = map m (seq o width).
Proof.
  revert o. induction width as [|width IH]; intros o; simpl; [reflexivity |].
  pose proof (Byte.to_N_bounded (m o)) as Hb.
  set (b := Z.of_N (Byte.to_N (m o))).
  assert (0 ≤ b < 256) as Hrange by (unfold b; lia).
  replace ((b + 256 * load_le width m (S o)) `mod` 256) with b
    by (rewrite (Z.mul_comm 256), Z_mod_plus_full, Z.mod_small; lia).
  replace ((b + 256 * load_le width m (S o)) `div` 256) with (load_le width m (S o))
    by (rewrite (Z.mul_comm 256), Z_div_plus_full, Z.div_small; lia).
  unfold b. rewrite N2Z.id, Byte.of_to_N. by rewrite IH.
Qed.

Lemma write_bytes_inside (mem : Memory) (o j : nat) (bytes : list byte) :
  (j < length bytes)%nat → write_bytes mem o bytes (o + j)%nat = nth j bytes x00.
Proof.
  intros Hj. unfold write_bytes. rewrite decide_True by lia.
  f_equal. lia.
Qed.

Lemma write_bytes_outside (mem : Memory) (o a : nat) (bytes : list byte) :
  (a < o ∨ o + length bytes ≤ a)%nat → write_bytes mem o bytes a = mem a.
Proof. intros Ha. unfold write_bytes. by rewrite decide_False by lia. Qed.

Lemma length_bytes_le (width : nat) (z : Z) : length (bytes_le width z) = width.
Proof.
  revert z. induction width as [|width IH]; intros z; simpl; [reflexivity |].
  destruct (Byte.of_N _); simpl; by rewrite IH.
Qed.

#[export] Instance uint8_laws : ElementLaws uint8_t.
Proof.
  split.
  - intros mem src i k. apply fn_lookup_insert.
  - intros mem i j v Hij. by apply fn_lookup_insert_ne.
Qed.

#[export] Instance float_laws : ElementLaws float.
Proof.
  split.
  - intros mem src i k.
    change (Float (load_le 4 (write_bytes mem (i * 4)
                                (bytes_le 4 (load_le 4 src (k * 4)))) (i * 4))
            = Float (load_le 4 src (k * 4))).
    f_equal. rewrite bytes_le_load_le. apply load_le_ext. intros j Hj.
    rewrite write_bytes_inside by (by rewrite length_map, length_seq).
    rewrite nth_lookup. change (map ?f ?l) with (f <$> l).
    by rewrite list_lookup_fmap, lookup_seq_lt.
  - intros mem i j [bits] Hij.
    change (Float (load_le 4 (write_bytes mem (i * 4) (bytes_le 4 bits)) (j * 4))
            = Float (load_le 4 mem (j * 4))).
    f_equal. apply load_le_ext. intros t Ht.
    apply write_bytes_outside. rewrite length_bytes_le. lia.
Qed.

(** ** The permuted copy and its round trip *)

(** A loop of stores whose targets differ pairwise leaves at each target the
    object it copied there. *)
Lemma scatter_lookup (T : Type) `{!ElementType T} `{!ElementStore T} `{!ElementLaws T}
  (target : nat → nat) (src dst : Memory) (count k : nat) :
  (∀ i j, (i < count)%nat → (j < count)%nat → target i = target j → i = j) →
  (k < count)%nat →
  element_at (T := T)
    (for_loop count (λ i dst, store_at dst (target i) (element_at (T := T) src i)) dst)
    (target k)
  = element_at (T := T) src k.
Proof.
  intros Hinj Hk. induction count as [|count IH]; [lia |]. simpl.
  destruct (decide (k = count)) as [-> | Hne].
  - apply load_store_eq.
  - rewrite load_store_ne.
    + apply IH; [| lia]. intros i j Hi Hj. apply Hinj; lia.
    + intros Heq. apply Hne. symmetry. apply Hinj; [lia | lia | exact Heq].
Qed.

(** On a permutation vector the routine is its general loop, also for
    rank 0. *)
Lemma Permute_permutation (T : Type) `{!ElementType T} `{!ElementStore T}
  (dstShape : TensorShape) (mappings : PermutationVector) (src dst : Memory) :
  mappings ≡ₚ seq 0 (length dstShape) →
  Permute (T := T) dstShape mappings src dst
  = let srcShape := permute_tuple (inverse mappings) dstShape in
    for_loop (GetNumElements srcShape)
      (λ k dst,
         store_at dst
           (flat_offset dstShape (permute_tuple mappings (multi_index srcShape k)))
           (element_at (T := T) src k))
      dst.
Proof.
  intros Hperm. unfold Permute.
  rewrite (Permuted_permutation _ _ (inverse_permutation _ _ Hperm)) by reflexivity.
  destruct mappings; [| reflexivity].
  apply Permutation_length in Hperm. rewrite length_seq in Hperm.
  destruct dstShape; [reflexivity | discriminate Hperm].
Qed.

(** The destination offset of source offset [k] when a tensor of shape
    [shape] is permuted by [P]. *)
Lemma permuted_offset_round_trip (shape : TensorShape) (P : PermutationVector) (k : nat) :
  P ≡ₚ seq 0 (length shape) →
  (k < GetNumElements shape)%nat →
  let shape' := permute_tuple P shape in
  let k' := flat_offset shape' (permute_tuple P (multi_index shape k)) in
  (k' < GetNumElements shape')%nat ∧
  flat_offset shape (permute_tuple (inverse P) (multi_index shape' k')) = k.
Proof.
  intros Hperm Hk shape' k'.
  pose proof (multi_index_valid shape k Hk) as Hvalid.
  pose proof (permute_tuple_valid _ _ Hperm _ _ eq_refl Hvalid) as Hvalid'.
  split; [by apply flat_offset_bound |].
  unfold k'. rewrite multi_index_flat_offset by exact Hvalid'.
  rewrite (permute_tuple_inverse _ _ Hperm).
  - by apply flat_offset_multi_index.
  - by apply Forall2_length in Hvalid.
Qed.

(** C4: for a permutation vector [P] over the rank of a tensor, swizzling
    by [P] and swizzling the result by the inverse of [P] gives back the
    shape and, at every element offset of the tensor, the element of the
    input (the three buffers being distinct). *)
Theorem swizzle_round_trip (T : Type) `{!ElementType T} `{!ElementStore T} `{!ElementLaws T}
  (shape : TensorShape) (P : PermutationVector) (input buffer1 buffer2 : Memory) :
  P ≡ₚ seq 0 (length shape) →
  let shape' := Permuted shape P in
  let permuted := SwizzleAndroidNn4dTensorToArmNn_typed T shape input buffer1 P in
  let restored :=
    SwizzleAndroidNn4dTensorToArmNn_typed T shape' permuted buffer2 (inverse P) in
  Permuted shape' (inverse P) = shape
  ∧ ∀ k, (k < GetNumElements shape)%nat →
         element_at (T := T) restored k = element_at (T := T) input k.
Proof.
  intros HP shape' permuted restored.
  pose proof (inverse_permutation _ _ HP) as HQ.
  assert (shape' = permute_tuple P shape) as Hshape'
    by (by apply (Permuted_permutation _ _ HP)).
  assert (length shape' = length shape) as Hlen'.
  { rewrite Hshape'. unfold permute_tuple.
    by rewrite length_map, (permutation_length _ _ HP). }
  assert (permute_tuple (inverse P) shape' = shape) as Hback
    by (rewrite Hshape'; by apply (permute_tuple_inverse _ _ HP)).
  assert (Permuted shape' (inverse P) = shape) as Hshape.
  { by rewrite (Permuted_permutation _ _ HQ). }
  split; [exact Hshape |].
  unfold restored, permuted, SwizzleAndroidNn4dTensorToArmNn_typed.
  fold shape'. rewrite Hshape.
  rewrite (Permute_permutation T shape (inverse P)) by exact HQ.
  rewrite (Permute_permutation T shape' P) by (by rewrite Hlen').
  cbv zeta. rewrite Hback, (inverse_inverse _ _ HP), <- Hshape'.
  set (f := λ k, flat_offset shape' (permute_tuple P (multi_index shape k))).
  set (g := λ j, flat_offset shape (permute_tuple (inverse P) (multi_index shape' j))).
  assert (∀ k, (k < GetNumElements shape)%nat →
               (f k < GetNumElements shape')%nat ∧ g (f k) = k) as Hgf.
  { intros k Hk. unfold f, g. rewrite Hshape'.
    by apply permuted_offset_round_trip. }
  assert (∀ j, (j < GetNumElements shape')%nat → f (g j) = j) as Hfg.
  { intros j Hj. unfold f, g.
    assert (inverse P ≡ₚ seq 0 (length shape')) as HQ' by (by rewrite Hlen').
    pose proof (permuted_offset_round_trip shape' (inverse P) j HQ' Hj) as [_ H].
    by rewrite Hback, (inverse_inverse _ _ HP) in H. }
  intros k Hk. destruct (Hgf k Hk) as [Hfk Hgfk].
  rewrite <- Hgfk at 1.
  rewrite (scatter_lookup T g) by
    (first [exact Hfk | intros i j Hi Hj Heq; rewrite <- (Hfg i Hi), <- (Hfg j Hj); by rewrite Heq]).
  apply (scatter_lookup T f); [| exact Hk].
  intros i j Hi Hj Heq.
  rewrite <- (proj2 (Hgf i Hi)), <- (proj2 (Hgf j Hj)). by rewrite Heq.
Qed.

(** ** Operand translation and graph export: claims *)

(** C9: an operand whose type is none of TENSOR_FLOAT32, TENSOR_QUANT8_ASYMM
    and TENSOR_INT32 makes the translation throw UnsupportedOperand with that
    type and return nothing; each of the three types yields a descriptor with
    the operand's dimensions, scale and zero point and the data type Float32,
    QuantisedAsymm8, respectively Signed32. *)
Theorem GetTensorInfoForOperand_by_type (operand : Operand) :
  (type operand ∉ [TENSOR_FLOAT32; TENSOR_QUANT8_ASYMM; TENSOR_INT32] →
   GetTensorInfoForOperand operand = Thrown (UnsupportedOperand (type operand)))
  ∧ (∀ t, (type operand, t) ∈ [ (TENSOR_FLOAT32, Float32);
                                (TENSOR_QUANT8_ASYMM, QuantisedAsymm8);
                                (TENSOR_INT32, Signed32) ] →
          GetTensorInfoForOperand operand
          = Returned {| GetShape := dimensions operand; GetDataType := t;
                        GetQuantizationScale := scale operand;
                        GetQuantizationOffset := zeroPoint operand |}).
Proof.
  unfold GetTensorInfoForOperand. split.
  - rewrite !not_elem_of_cons. intros (? & ? & ? & _).
    destruct (type operand); simpl; congruence.
  - intros t. rewrite !elem_of_cons, elem_of_nil.
    intros [H | [H | [H | []]]]; injection H as -> ->; reflexivity.
Qed.

(** C10: with an empty dump directory the graph export returns at once;
    the files and the log are as they were, whatever the network and the
    model. *)
Theorem ExportNetworkGraphToDotFile_empty_directory
  (optimizedNetwork : IOptimizedNetwork) (model : Model) (w : World) :
  ExportNetworkGraphToDotFile optimizedNetwork "" model w = (Returned tt, w).
Proof. reflexivity. Qed.

(** ** The dump writer: files, offsets and bounds *)

(** X1: whatever it is given, a dump returns normally and leaves every
    file but its own dump file as it was; it logs the open-failure warning
    when its file cannot be opened, the write-error warning when the file
    opens and does not take the whole dump, and nothing when the whole dump
    is written. *)
Theorem DumpTensor_touches_only_its_file
  (dumpDir requestName tensorName : string) (tensor : ConstTensor) (w : World) :
  let fileName := dump_file_name dumpDir requestName tensorName in
  ∃ w', DumpTensor dumpDir requestName tensorName tensor w = (Returned tt, w')
        ∧ (∀ p, p ≠ fileName → files w' !! p = files w !! p)
        ∧ log w'
          = log w
            ++ (if can_open w fileName
                then if room_for w fileName (dump_text tensor)
                     then []
                     else [Warning ("An error occurred when writing to file "
                                    +:+ fileName)]
                else [Warning ("Could not open file " +:+ fileName +:+ " for writing")]).
Proof.
  intros fileName. destruct (can_open w fileName) eqn:Hopen.
  - eexists. split; [by apply DumpTensor_opened |]. split.
    + intros p Hp. cbn [files]. by rewrite lookup_insert_ne.
    + cbn [log]. fold fileName. destruct (room_for w fileName _); [| reflexivity].
      by rewrite app_nil_r.
  - eexists. split; [by apply DumpTensor_not_opened |].
    split; reflexivity.
Qed.

(** X19: when the file opens and takes fewer characters than the dump has,
    the call still returns normally; the file is left with the first
    characters of the dump, as many as it takes, and the log gains the
    write-error warning. *)
Theorem DumpTensor_write_failure
  (dumpDir requestName tensorName : string) (tensor : ConstTensor) (w : World) (n : nat) :
  can_open w (dump_file_name dumpDir requestName tensorName) = true →
  capacity w (dump_file_name dumpDir requestName tensorName) = Some n →
  (n < String.length (dump_text tensor))%nat →
  let fileName := dump_file_name dumpDir requestName tensorName in
  ∃ w', DumpTensor dumpDir requestName tensorName tensor w = (Returned tt, w')
        ∧ files w' !! fileName = Some (truncate n (dump_text tensor))
        ∧ String.length (truncate n (dump_text tensor)) = n
        ∧ log w' = log w ++ [Warning ("An error occurred when writing to file "
                                      +:+ fileName)].
Proof.
  intros Hopen Hcapacity Hlong fileName.
  eexists. split; [by apply DumpTensor_opened |].
  cbn [files log]. unfold room_for, fileName. rewrite Hcapacity. cbn [accepted fits].
  split; [by rewrite lookup_insert_eq |]. split.
  - rewrite length_truncate. lia.
  - apply Nat.leb_gt in Hlong. by rewrite Hlong.
Qed.

(** Inside the loops, and below 2^32 elements, the element index does not
    wrap and stays below the number of elements the loops cover. *)
Lemma visited_offset_in_bounds (batch height width channels b c h w : nat) :
  (b < batch)%nat → (c < channels)%nat → (h < height)%nat → (w < width)%nat →
  Z.of_nat (batch * height * width * channels) < 2 ^ 32 →
  visited_offset height width channels b c h w
  = Z.of_nat (b * channels + c + (h * width + w) * channels)
  ∧ (b * channels + c + (h * width + w) * channels < batch * height * width * channels)%nat.
Proof.
  intros Hb Hc Hh Hw Hsize.
  assert (h * width + w + 1 ≤ height * width)%nat as Hrow by nia.
  assert (b + (h * width + w) + 1 ≤ batch * (height * width))%nat as Hcell by nia.
  assert ((b + (h * width + w) + 1) * channels ≤ batch * (height * width) * channels)%nat
    as Hall by (by apply Nat.mul_le_mono_r).
  assert (b * channels + c + (h * width + w) * channels
          < batch * height * width * channels)%nat as Hlt by nia.
  split; [| exact Hlt].
  unfold visited_offset, uint32. rewrite Z.mod_small by nia. lia.
Qed.

Lemma dump_extents_product (shape : list nat) :
  (length shape ≤ 4)%nat →
  (dump_batch shape * dump_height shape * dump_width shape * dump_channels shape
   ≤ GetNumElements shape)%nat.
Proof.
  intros Hrank.
  destruct shape as [|d0 [|d1 [|d2 [|d3 [|d4 shape]]]]];
    [| | | | | simpl in Hrank; lia];
    unfold dump_batch, dump_height, dump_width, dump_channels, GetNumElements, dim;
    simpl; lia.
Qed.

(** The element function of a supported type looks at the bytes of the one
    element it prints. *)
Lemma load_le_local (m m' : Memory) (e : nat) :
  (∀ a, (e * 4 ≤ a < e * 4 + 4)%nat → m a = m' a) →
  load_le 4 m (e * 4) = load_le 4 m' (e * 4).
Proof. intros H. apply load_le_ext. intros j Hj. apply H. lia. Qed.

Lemma select_dump_function_local (t : DataType) (f : DumpElementFunction)
  (tensor tensor' : ConstTensor) (e : nat) (fs : ofstream) :
  select_dump_function t = Some f →
  (∀ a, (e * DataType_size t ≤ a < e * DataType_size t + DataType_size t)%nat →
        GetMemoryArea tensor a = GetMemoryArea tensor' a) →
  f tensor (Z.of_nat e) fs = f tensor' (Z.of_nat e) fs.
Proof.
  intros Hsel Hbytes.
  destruct t; simplify_eq/=; unfold DumpTensorElement; rewrite Nat2Z.id.
  - change (element_at (T := float) ?m e) with (Float (load_le 4 m (e * 4))).
    by rewrite (load_le_local _ _ _ Hbytes).
  - change (element_at (T := uint8_t) ?m e) with (m e).
    rewrite (Hbytes e) by lia. reflexivity.
  - change (element_at (T := int32_t) ?m e) with (I32 (int32_of_bits (load_le 4 m (e * 4)))).
    by rewrite (load_le_local _ _ _ Hbytes).
Qed.

(** X2: when the batch extent is 1 (any tensor of rank 1 to 3, and a rank-4
    tensor whose first dimension is 1) and the tensor has fewer than 2^32
    elements, the text of the dump is the header and then, at channel c, row
    h and column w, the element at the row-major offset (h*width +
    w)*channels + c; a file that opens holds it whole, or as much of it as
    the file takes. *)
Theorem DumpTensor_single_batch_row_major
  (dumpDir requestName tensorName : string) (tensor : ConstTensor) (w : World)
  (f : DumpElementFunction) :
  can_open w (dump_file_name dumpDir requestName tensorName) = true →
  select_dump_function (GetDataType (GetInfo tensor)) = Some f →
  dump_batch (GetShape (GetInfo tensor)) = 1%nat →
  Z.of_nat (dump_height (GetShape (GetInfo tensor)) * dump_width (GetShape (GetInfo tensor))
            * dump_channels (GetShape (GetInfo tensor))) < 2 ^ 32 →
  let shape := GetShape (GetInfo tensor) in
  let fileName := dump_file_name dumpDir requestName tensorName in
  ∃ w', DumpTensor dumpDir requestName tensorName tensor w = (Returned tt, w')
        ∧ files w' !! fileName
          = Some (accepted (capacity w fileName)
                    (data (dump_grid
                             (bhwc_offset (dump_height shape) (dump_width shape)
                                (dump_channels shape))
                             f tensor (GetNumDimensions shape) 1
                             (dump_height shape) (dump_width shape) (dump_channels shape)
                             (dump_header tensor (new_stream fileName))))).
Proof.
  intros Hopen Hsel Hbatch Hsize shape fileName.
  edestruct (DumpTensor_file dumpDir requestName tensorName tensor w)
    as (w' & Hrun & Hfile & _); [exact Hopen | | exists w'; split; [exact Hrun | exact Hfile]].
  rewrite (dump_body_supported _ _ _ Hsel), Hbatch, dump_elements_visited_offsets.
  f_equal. apply dump_grid_ext. intros b c h w0 s Hb Hc Hh Hw.
  assert (b = 0)%nat as -> by lia.
  by rewrite visited_offset_first_batch.
Qed.

(** X3: a dump reads nothing beyond the tensor's elements: for a shape of
    rank at most 4 with fewer than 2^32 elements, two buffers that agree on
    the bytes of those elements give the same dump, file for file and log
    for log. *)
Theorem DumpTensor_reads_only_the_elements
  (dumpDir requestName tensorName : string) (tensor tensor' : ConstTensor) (w : World) :
  GetInfo tensor' = GetInfo tensor →
  (length (GetShape (GetInfo tensor)) ≤ 4)%nat →
  Z.of_nat (GetNumElements (GetShape (GetInfo tensor))) < 2 ^ 32 →
  agree_below (GetNumElements (GetShape (GetInfo tensor))
               * DataType_size (GetDataType (GetInfo tensor)))
    (GetMemoryArea tensor) (GetMemoryArea tensor') →
  DumpTensor dumpDir requestName tensorName tensor' w
  = DumpTensor dumpDir requestName tensorName tensor w.
Proof.
  intros Hinfo Hrank Hsize Hagree.
  assert (∀ fs, dump_body tensor' fs = dump_body tensor fs) as Hbody.
  { intros fs.
    assert (dump_header tensor' fs = dump_header tensor fs) as Hheader
      by (unfold dump_header, MemoryLayoutString; by rewrite Hinfo).
    destruct (select_dump_function (GetDataType (GetInfo tensor))) as [f|] eqn:Hsel.
    - rewrite (dump_body_supported tensor f fs Hsel).
      rewrite (dump_body_supported tensor' f fs) by (by rewrite Hinfo).
      rewrite Hinfo, Hheader, !dump_elements_visited_offsets.
      pose proof (dump_extents_product _ Hrank) as Hprod.
      apply dump_grid_ext. intros b c h w' s Hb Hc Hh Hw.
      destruct (visited_offset_in_bounds _ _ _ _ b c h w' Hb Hc Hh Hw) as [-> Hlt];
        [lia |].
      symmetry. apply (select_dump_function_local _ _ _ _ _ _ Hsel).
      intros a Ha. apply Hagree.
      set (size := DataType_size (GetDataType (GetInfo tensor))) in *.
      set (count := GetNumElements (GetShape (GetInfo tensor))) in *.
      set (e := (b * _ + c + _)%nat) in *. nia.
    - unfold dump_body. by rewrite Hinfo, Hsel. }
  unfold DumpTensor. destruct (open _ w) as [fs w0]. by rewrite !Hbody.
Qed.

(** ** The header of a dump *)

Lemma put_new (text p d : string) (o : bool) :
  put text {| path := p; is_open := o; good := true; data := d; limit := None |}
  = {| path := p; is_open := o; good := true; data := d +:+ text; limit := None |}.
Proof. reflexivity. Qed.

Lemma comma_prefixed_snoc (sizes : list nat) (d : nat) :
  comma_prefixed (sizes ++ [d])
  = comma_prefixed sizes +:+ "," +:+ show_unsigned (Z.of_nat d).
Proof.
  induction sizes as [|x sizes IH]; simpl.
  - by rewrite append_empty_r.
  - by rewrite IH, !append_assoc.
Qed.

Lemma dimensions_text_cons (d : nat) (sizes : list nat) :
  dimensions_text (d :: sizes) = show_unsigned (Z.of_nat d) +:+ comma_prefixed sizes.
Proof.
  revert d. induction sizes as [|x sizes IH]; intros d.
  - change (show_unsigned (Z.of_nat d) = show_unsigned (Z.of_nat d) +:+ "").
    by rewrite append_empty_r.
  - change (show_unsigned (Z.of_nat d) +:+ "," +:+ dimensions_text (x :: sizes)
            = show_unsigned (Z.of_nat d) +:+ ","
              +:+ show_unsigned (Z.of_nat x) +:+ comma_prefixed sizes).
    by rewrite IH.
Qed.

Lemma dump_header_sizes_loop (d0 : nat) (sizes : list nat) (n : nat) (fs : ofstream) :
  good fs = true → limit fs = None → (n ≤ length sizes)%nat →
  for_loop n
    (λ i fileStream,
       put (show_unsigned (Z.of_nat (dim (d0 :: sizes) (S i)))) (put "," fileStream))
    fs
  = {| path := path fs; is_open := is_open fs; good := true;
       data := data fs +:+ comma_prefixed (take n sizes); limit := None |}.
Proof.
  intros Hgood Hlimit. induction n as [|n IH]; intros Hn.
  - simpl. rewrite append_empty_r. destruct fs; simpl in *; by subst.
  - simpl. rewrite IH by lia.
    rewrite !put_new. f_equal.
    destruct (lookup_lt_is_Some_2 sizes n ltac:(lia)) as [d Hd].
    rewrite (take_S_r _ _ _ Hd), comma_prefixed_snoc.
    unfold dim. simpl. rewrite (nth_lookup_Some _ _ _ _ Hd).
    by rewrite !append_assoc.
Qed.

Lemma dump_header_text (tensor : ConstTensor) (fs : ofstream) :
  good fs = true → limit fs = None →
  GetShape (GetInfo tensor) ≠ [] →
  data (dump_header tensor fs)
  = data fs
    +:+ "# Number of elements "
    +:+ show_unsigned (Z.of_nat (GetNumElements (GetShape (GetInfo tensor)))) +:+ endl
    +:+ "# Dimensions " +:+ MemoryLayoutString tensor
    +:+ "[" +:+ dimensions_text (GetShape (GetInfo tensor)) +:+ "]" +:+ endl.
Proof.
  intros Hgood Hlimit Hshape. unfold dump_header.
  destruct (GetShape (GetInfo tensor)) as [|d0 sizes] eqn:Eshape; [done |].
  unfold GetNumDimensions. simpl length. rewrite Nat.sub_succ, Nat.sub_0_r.
  rewrite (put_good "# Number of elements " fs Hgood Hlimit), !put_new.
  rewrite dump_header_sizes_loop by (simpl; done).
  cbn [path is_open good data]. rewrite !put_new. cbn [data].
  rewrite firstn_all, dimensions_text_cons. unfold dim. simpl nth.
  by rewrite !append_assoc.
Qed.

(** X4: for a shape of at least one dimension the header is two lines, the
    element count and the dimension sizes in order, separated by commas, in
    brackets after the layout label.  The header reaches any stream as one
    insertion of that text does, and on a good stream whose writes all
    succeed the text follows what the stream held. *)
Theorem dump_header_two_lines (tensor : ConstTensor) (fs : ofstream) :
  GetShape (GetInfo tensor) ≠ [] →
  let header :=
    "# Number of elements "
    +:+ show_unsigned (Z.of_nat (GetNumElements (GetShape (GetInfo tensor)))) +:+ endl
    +:+ "# Dimensions " +:+ MemoryLayoutString tensor
    +:+ "[" +:+ dimensions_text (GetShape (GetInfo tensor)) +:+ "]" +:+ endl in
  dump_header tensor fs = put header fs
  ∧ (good fs = true → limit fs = None →
     data (dump_header tensor fs) = data fs +:+ header).
Proof.
  intros Hshape header. split.
  - rewrite (inserts_text _ "" fs (dump_header_inserts tensor)). f_equal.
    by rewrite (dump_header_text tensor (new_stream "") eq_refl eq_refl Hshape).
  - intros Hgood Hlimit. by apply dump_header_text.
Qed.

(** ** Graph export: the file and its name *)

Lemma append_inj_r (a b c : string) : a +:+ c = b +:+ c → a = b.
Proof.
  revert b. induction a as [|x a IH]; intros [|y b] H.
  - reflexivity.
  - apply (f_equal String.length) in H.
    rewrite !length_append in H. simpl in H. lia.
  - apply (f_equal String.length) in H.
    rewrite !length_append in H. simpl in H. lia.
  - rewrite !append_cons in H. injection H as -> H. f_equal. by apply IH.
Qed.

Lemma to_hex_uint_not_Nil (n : N) : N.to_hex_uint n ≠ Hexadecimal.Nil.
Proof.
  rewrite <- (HexadecimalN.Unsigned.of_to n) at 1.
  rewrite HexadecimalN.Unsigned.to_of. unfold Hexadecimal.unorm.
  destruct (Hexadecimal.nzhead _); discriminate.
Qed.

Lemma lower_upper_hex (d : Hexadecimal.uint) :
  map_string lower_hex_digit
    (map_string upper_hex_digit (HexadecimalString.NilEmpty.string_of_uint d))
  = HexadecimalString.NilEmpty.string_of_uint d.
Proof. induction d; simpl; [reflexivity | f_equal; assumption ..]. Qed.

Lemma upper_hex_digits (d : Hexadecimal.uint) :
  string_forall is_upper_hex_digit
    (map_string upper_hex_digit (HexadecimalString.NilEmpty.string_of_uint d)) = true.
Proof. induction d; simpl; [reflexivity | assumption ..]. Qed.

Lemma show_upper_hex_NilEmpty (z : Z) :
  show_upper_hex z
  = map_string upper_hex_digit
      (HexadecimalString.NilEmpty.string_of_uint (N.to_hex_uint (Z.to_N z))).
Proof.
  unfold show_upper_hex, HexadecimalString.NilZero.string_of_uint.
  pose proof (to_hex_uint_not_Nil (Z.to_N z)) as H.
  by destruct (N.to_hex_uint (Z.to_N z)).
Qed.

Lemma show_upper_hex_inj (z z' : Z) :
  0 ≤ z → 0 ≤ z' → show_upper_hex z = show_upper_hex z' → z = z'.
Proof.
  intros Hz Hz' H. rewrite !show_upper_hex_NilEmpty in H.
  apply (f_equal (map_string lower_hex_digit)) in H.
  rewrite !lower_upper_hex in H.
  apply (f_equal HexadecimalString.NilEmpty.uint_of_string) in H.
  rewrite !HexadecimalString.NilEmpty.usu in H. injection H as H.
  apply HexadecimalN.Unsigned.to_uint_inj in H. lia.
Qed.

(** X5: the hexadecimal text of the model address in the graph file's name
    is never empty and holds only the digits 0-9 and A-F, and two models at
    different addresses get different file names in the same directory. *)
Theorem network_graph_file_name_by_address (dumpDir : string) (model model' : Model) :
  0 ≤ address model → 0 ≤ address model' →
  show_upper_hex (address model) ≠ ""
  ∧ string_forall is_upper_hex_digit (show_upper_hex (address model)) = true
  ∧ (network_graph_file_name dumpDir model = network_graph_file_name dumpDir model'
     → address model = address model').
Proof.
  intros Hz Hz'. split; [| split].
  - rewrite show_upper_hex_NilEmpty.
    pose proof (to_hex_uint_not_Nil (Z.to_N (address model))) as H.
    by destruct (N.to_hex_uint (Z.to_N (address model))).
  - rewrite show_upper_hex_NilEmpty. apply upper_hex_digits.
  - unfold network_graph_file_name. intros H.
    apply String.app_inj, String.app_inj, append_inj_r in H.
    by apply show_upper_hex_inj.
Qed.

Lemma ExportNetworkGraphToDotFile_unfold (optimizedNetwork : IOptimizedNetwork)
  (dumpDir : string) (model : Model) (w : World) :
  dumpDir ≠ "" →
  ExportNetworkGraphToDotFile optimizedNetwork dumpDir model w
  = let fileName := network_graph_file_name dumpDir model in
    let w := ALOGV ("Exporting the optimized network graph to file: " +:+ fileName) w in
    let '(fileStream, w) := open fileName w in
    if negb (good fileStream)
    then (Returned tt, ALOGW ("Could not open file " +:+ fileName +:+ " for writing") w)
    else
      let '(status, fileStream) := SerializeToDot optimizedNetwork fileStream in
      let w :=
        match status with
        | Success => w
        | Failure => ALOGW ("An error occurred when writing to file " +:+ fileName) w
        end in
      (Returned tt, close fileStream w).
Proof.
  intros Hdir. unfold ExportNetworkGraphToDotFile. by rewrite decide_False.
Qed.

(** X6: with a dump directory given, a graph file that cannot be opened
    makes the export return normally with no file changed; the log gains the
    verbose line naming the file and then the warning. *)
Theorem ExportNetworkGraphToDotFile_open_failure (optimizedNetwork : IOptimizedNetwork)
  (dumpDir : string) (model : Model) (w : World) :
  dumpDir ≠ "" →
  can_open w (network_graph_file_name dumpDir model) = false →
  let fileName := network_graph_file_name dumpDir model in
  ∃ w', ExportNetworkGraphToDotFile optimizedNetwork dumpDir model w = (Returned tt, w')
        ∧ files w' = files w
        ∧ log w'
          = log w ++ [ Verbose ("Exporting the optimized network graph to file: "
                                +:+ fileName);
                       Warning ("Could not open file " +:+ fileName +:+ " for writing") ].
Proof.
  intros Hdir Hopen. cbv zeta. eexists.
  rewrite ExportNetworkGraphToDotFile_unfold by done. cbv zeta.
  unfold open. cbn [can_open ALOGV]. rewrite Hopen. cbn [good negb].
  split; [reflexivity |]. split; [reflexivity |].
  cbn [log ALOGW ALOGV]. by rewrite <- app_assoc.
Qed.

(** X7: with a dump directory given and the graph file opened, the file
    holds what the network's serializer left in the stream it was handed,
    whether or not its writes succeeded (as long as it leaves the stream on
    its file), no other file changes, the call returns normally, and the
    write warning is logged exactly when the serializer reports failure. *)
Theorem ExportNetworkGraphToDotFile_writes_the_graph (optimizedNetwork : IOptimizedNetwork)
  (dumpDir : string) (model : Model) (w : World) (status : Status) (written : ofstream) :
  dumpDir ≠ "" →
  can_open w (network_graph_file_name dumpDir model) = true →
  SerializeToDot optimizedNetwork (open (network_graph_file_name dumpDir model) w).1
  = (status, written) →
  is_open written = true →
  path written = network_graph_file_name dumpDir model →
  let fileName := network_graph_file_name dumpDir model in
  ∃ w', ExportNetworkGraphToDotFile optimizedNetwork dumpDir model w = (Returned tt, w')
        ∧ files w' !! fileName = Some (data written)
        ∧ (∀ p, p ≠ fileName → files w' !! p = files w !! p)
        ∧ log w'
          = log w
            ++ [Verbose ("Exporting the optimized network graph to file: " +:+ fileName)]
            ++ match status with
               | Success => []
               | Failure => [Warning ("An error occurred when writing to file "
                                      +:+ fileName)]
               end.
Proof.
  intros Hdir Hopen Hserialize Hstill Hpath. cbv zeta. eexists.
  rewrite ExportNetworkGraphToDotFile_unfold by done. cbv zeta.
  unfold open in *. cbn [can_open capacity ALOGV]. rewrite Hopen in *.
  cbn [good negb fst] in *.
  rewrite Hserialize. unfold close. rewrite Hstill, Hpath.
  split; [reflexivity |].
  destruct status; cbn [files log ALOGW ALOGV]; repeat split;
    try (by rewrite lookup_insert_eq);
    try (intros p Hp; by rewrite !lookup_insert_ne);
    by rewrite <- ?app_assoc, ?app_nil_r.
Qed.

(** ** Dumps, swizzles and translated operands together *)

(** X8: a dump replaces what the file held: dumping a second tensor under
    the same names after a first leaves the files as dumping the second
    alone does and adds to the log what the second alone adds; after a first
    dump that was written whole the world is the one the second alone
    leaves. *)
Theorem DumpTensor_overwrites
  (dumpDir requestName tensorName : string) (first second : ConstTensor) (w w1 : World) :
  can_open w (dump_file_name dumpDir requestName tensorName) = true →
  DumpTensor dumpDir requestName tensorName first w = (Returned tt, w1) →
  DumpTensor dumpDir requestName tensorName second w1
  = DumpTensor dumpDir requestName tensorName second
      {| files := files w; can_open := can_open w; capacity := capacity w; log := log w1 |}
  ∧ (room_for w (dump_file_name dumpDir requestName tensorName) (dump_text first) = true →
     DumpTensor dumpDir requestName tensorName second w1
     = DumpTensor dumpDir requestName tensorName second w).
Proof.
  intros Hopen Hfirst.
  rewrite DumpTensor_opened in Hfirst by exact Hopen. injection Hfirst as <-.
  split.
  - rewrite !DumpTensor_opened by exact Hopen.
    unfold room_for. cbn [files can_open capacity log]. by rewrite insert_insert_eq.
  - intros Hroom. rewrite Hroom.
    rewrite !DumpTensor_opened by exact Hopen.
    unfold room_for. cbn [files can_open capacity log]. by rewrite insert_insert_eq.
Qed.

(** X9: when a swizzle returns and when it does not: it returns normally
    exactly if assertions are compiled out or the tensor has rank 4 and type
    Float32 or QuantisedAsymm8; otherwise the process is aborted with the
    destination as it was, and for a wrong rank before anything is logged. *)
Theorem SwizzleAndroidNn4dTensorToArmNn_outcome
  (tensor : TensorInfo) (input output : Memory) (mappings : PermutationVector) (w : World) :
  let result := SwizzleAndroidNn4dTensorToArmNn tensor input output mappings w in
  (result.1.1 = Returned tt
   ↔ NDEBUG = true
     ∨ (GetNumDimensions (GetShape tensor) = 4%nat
        ∧ GetDataType tensor ∈ [Float32; QuantisedAsymm8]))
  ∧ (result.1.1 ≠ Returned tt → result.1.1 = Aborted ∧ result.1.2 = output)
  ∧ (NDEBUG = false → GetNumDimensions (GetShape tensor) ≠ 4%nat →
     result = (Aborted, output, w)).
Proof.
  cbv zeta. unfold SwizzleAndroidNn4dTensorToArmNn.
  assert (∀ t : DataType, t ∈ [Float32; QuantisedAsymm8] ↔ t = Float32 ∨ t = QuantisedAsymm8)
    as Htwo.
  { intros t. rewrite !elem_of_cons, elem_of_nil.
    split; [intros [? | [? | []]]; auto | intros [? | ?]; auto]. }
  destruct NDEBUG, (GetDataType tensor),
    (Nat.eqb_spec (GetNumDimensions (GetShape tensor)) 4) as [Hrank | Hrank];
    simpl; rewrite Htwo; clear Htwo;
    repeat split; intros;
    repeat match goal with
           | H : _ ∨ _ |- _ => destruct H
           | H : _ ∧ _ |- _ => destruct H
           end;
    try congruence;
    first [ left; reflexivity
          | right; split; [assumption | (left; reflexivity) || (right; reflexivity)] ].
Qed.

(** X10: whatever the translation returns can be dumped: for an operand
    that translates, the text of the dump of a tensor with the returned
    descriptor starts with the element-count line for the product of the
    operand's dimensions, never with the unsupported-type line; a file that
    opens holds that text whole, or as much of it as the file takes. *)
Theorem GetTensorInfoForOperand_then_DumpTensor
  (operand : Operand) (tensor : ConstTensor)
  (dumpDir requestName tensorName : string) (w : World) :
  GetTensorInfoForOperand operand = Returned (GetInfo tensor) →
  can_open w (dump_file_name dumpDir requestName tensorName) = true →
  ∃ w' rest,
    DumpTensor dumpDir requestName tensorName tensor w = (Returned tt, w')
    ∧ files w' !! dump_file_name dumpDir requestName tensorName
      = Some (accepted (capacity w (dump_file_name dumpDir requestName tensorName))
                ("# Number of elements "
                 +:+ show_unsigned (Z.of_nat (foldr Nat.mul 1%nat (dimensions operand)))
                 +:+ endl +:+ rest)).
Proof.
  intros Htranslate Hopen.
  assert (GetShape (GetInfo tensor) = dimensions operand
          ∧ ∃ f, select_dump_function (GetDataType (GetInfo tensor)) = Some f)
    as [Hshape [f Hsel]].
  { unfold GetTensorInfoForOperand in Htranslate.
    destruct (type operand); simpl in Htranslate; try discriminate;
      injection Htranslate as <-; simpl; eauto. }
  pose proof (dump_header_starts tensor
                (new_stream (dump_file_name dumpDir requestName tensorName))) as Hhead.
  rewrite (put_good "# Number of elements ") in Hhead by reflexivity.
  rewrite !put_new in Hhead.
  pose proof (dump_elements_extends f tensor
                (GetNumDimensions (GetShape (GetInfo tensor)))
                (dump_batch (GetShape (GetInfo tensor)))
                (dump_height (GetShape (GetInfo tensor)))
                (dump_width (GetShape (GetInfo tensor)))
                (dump_channels (GetShape (GetInfo tensor)))
                (dump_header tensor
                   (new_stream (dump_file_name dumpDir requestName tensorName)))
                (select_dump_function_extends _ _ Hsel)) as Hrest.
  destruct (extends_trans _ _ _ Hhead Hrest) as (_ & _ & _ & _ & rest & Hdata).
  edestruct (DumpTensor_file dumpDir requestName tensorName tensor w)
    as (w' & Hrun & Hfile & _);
    [exact Hopen | | exists w', rest; split; [exact Hrun | exact Hfile]].
  rewrite (dump_body_supported _ _ _ Hsel), Hdata.
  cbn [data new_stream]. rewrite Hshape. unfold GetNumElements.
  by rewrite !append_assoc.
Qed.

(** X11: of the operands that translate, the swizzle takes the float and
    the quantised ones: for a translated operand of four dimensions the
    swizzle ends on its unknown-type path exactly if the operand's type is
    TENSOR_INT32. *)
Theorem GetTensorInfoForOperand_then_swizzle
  (operand : Operand) (info : TensorInfo) (input output : Memory)
  (mappings : PermutationVector) (w : World) :
  GetTensorInfoForOperand operand = Returned info →
  length (dimensions operand) = 4%nat →
  (swizzle_rejects info input output mappings w ↔ type operand = TENSOR_INT32).
Proof.
  intros Htranslate Hrank. unfold GetTensorInfoForOperand in Htranslate.
  unfold swizzle_rejects, SwizzleAndroidNn4dTensorToArmNn.
  destruct (type operand); simpl in Htranslate; try discriminate;
    injection Htranslate as <-; cbn [GetShape GetDataType];
    unfold GetNumDimensions; rewrite Hrank; simpl; rewrite andb_false_r;
    (split; [| try discriminate; reflexivity]);
    try (intros H; injection H as _ _ H; symmetry in H;
         by apply ALOGW_changes_world in H);
    reflexivity.
Qed.

(** ** Memory pools *)

(** X12: a location in an existing pool gives the pool's buffer from the
    location's offset on: byte [a] of the result is byte [offset + a] of the
    pool, and at an offset that is a multiple of 4 its floats are the pool's
    floats from index [offset/4] on.  A pool index past the end of the pools
    fails the assertion where assertions are compiled in, and is undefined
    where they are not. *)
Theorem GetMemoryFromPool_by_index (location : DataLocation)
  (memPools : list RunTimePoolInfo) :
  (∀ memPool, memPools !! poolIndex location = Some memPool →
     ∃ memory,
       GetMemoryFromPool location memPools = Some (Returned memory)
       ∧ (∀ a, memory a = getBuffer memPool (offset location + a)%nat)
       ∧ (∀ j k, offset location = (4 * j)%nat →
                 element_at (T := float) memory k
                 = element_at (T := float) (getBuffer memPool) (j + k)%nat))
  ∧ ((length memPools ≤ poolIndex location)%nat →
     GetMemoryFromPool location memPools = if NDEBUG then None else Some Aborted).
Proof.
  unfold GetMemoryFromPool. split.
  - intros memPool Hpool. pose proof (lookup_lt_Some _ _ _ Hpool) as Hlt.
    apply Nat.ltb_lt in Hlt. rewrite Hlt, andb_false_r, Hpool. simpl.
    eexists. split; [reflexivity |]. split; [reflexivity |].
    intros j k Hoffset.
    change (Float (load_le 4 (advance (getBuffer memPool) (offset location)) (k * 4))
            = Float (load_le 4 (getBuffer memPool) ((j + k) * 4))).
    f_equal. apply load_le_ext. intros i Hi. unfold advance. f_equal. lia.
  - intros Hge. apply Nat.ltb_ge in Hge as Hltb. rewrite Hltb.
    destruct NDEBUG; simpl; [| reflexivity].
    by rewrite lookup_ge_None_2.
Qed.

(** ** Summaries *)

Lemma listing_snoc (items : list string) (item : string) :
  listing (items ++ [item]) = listing items +:+ item +:+ ", ".
Proof.
  induction items as [|x items IH]; simpl.
  - by rewrite append_empty_r.
  - by rewrite IH, !append_assoc.
Qed.

Lemma count_newlines_listing (items : list string) :
  Forall (λ item, count_newlines item = 0%nat) items → count_newlines (listing items) = 0%nat.
Proof.
  induction 1 as [|x items Hx _ IH]; [reflexivity |]. simpl.
  rewrite !count_newlines_append, Hx, IH. reflexivity.
Qed.

Lemma count_newlines_c_str (s : string) :
  count_newlines s = 0%nat → count_newlines (c_str s) = 0%nat.
Proof.
  induction s as [|c s IH]; [reflexivity |]. simpl.
  destruct (Ascii.eqb c zero); [reflexivity |]. simpl.
  destruct (Ascii.eqb c (ascii_of_nat 10)); [discriminate |]. exact IH.
Qed.

(** A loop that appends one item and a separator per turn appends the
    listing of the items. *)
Lemma listing_loop {A : Type} (items : list A) (texts : list string)
  (body : nat → option string → option string) (text_of : A → option string)
  (acc : string) (n : nat) :
  (∀ i r, body i (Some r)
          = (x ← items !! i; t ← text_of x; Some ((r +:+ t) +:+ ", "))) →
  Forall2 (λ x t, text_of x = Some t) items texts →
  (n ≤ length items)%nat →
  for_loop n body (Some acc) = Some (acc +:+ listing (take n texts)).
Proof.
  intros Hbody Htexts. induction n as [|n IH]; intros Hn; simpl.
  - by rewrite append_empty_r.
  - rewrite IH by lia. rewrite Hbody.
    destruct (lookup_lt_is_Some_2 items n ltac:(lia)) as [x Hx].
    destruct (Forall2_lookup_l _ _ _ _ _ Htexts Hx) as (t & Ht & Hxt).
    rewrite Hx. simpl. rewrite Hxt. simpl.
    by rewrite (take_S_r _ _ _ Ht), listing_snoc, !append_assoc.
Qed.

(** X13: for a model whose input and output indexes all name operands, the
    summary is the line of the four counts followed by the lines "Inputs:",
    "Operations:" and "Outputs:", each listing its items in order, every
    item followed by a comma and a blank; an operation's name is cut at its
    first NUL. *)
Theorem GetModelSummary_text (model : ModelContent) (inputs outputs : list Operand) :
  Forall2 (λ index operand, operands model !! index = Some operand)
    (inputIndexes model) inputs →
  Forall2 (λ index operand, operands model !! index = Some operand)
    (outputIndexes model) outputs →
  GetModelSummary model
  = Some (show_unsigned (Z.of_nat (length (inputIndexes model))) +:+ " input(s), "
          +:+ show_unsigned (Z.of_nat (length (operations model))) +:+ " operation(s), "
          +:+ show_unsigned (Z.of_nat (length (outputIndexes model))) +:+ " output(s), "
          +:+ show_unsigned (Z.of_nat (length (operands model))) +:+ " operand(s)" +:+ endl
          +:+ "Inputs: " +:+ listing (map GetOperandSummary inputs) +:+ endl
          +:+ "Operations: "
          +:+ listing (map (λ operation,
                              c_str (OperationType_toString (operation_type operation)))
                         (operations model)) +:+ endl
          +:+ "Outputs: " +:+ listing (map GetOperandSummary outputs) +:+ endl).
Proof.
  intros Hinputs Houtputs. unfold GetModelSummary. cbv zeta.
  assert (∀ indexes named,
            Forall2 (λ index operand, operands model !! index = Some operand) indexes named →
            Forall2 (λ index text,
                       (operand ← operands model !! index; Some (GetOperandSummary operand))
                       = Some text)
              indexes (map GetOperandSummary named)) as Hnamed.
  { intros indexes named H.
    induction H as [|index operand indexes named Hop _ IH]; simpl; constructor;
      [by rewrite Hop | exact IH]. }
  assert (∀ (indexes : list nat) (i : nat) (r : string),
            (index ← indexes !! i;
             operand ← operands model !! index;
             Some ((r +:+ GetOperandSummary operand) +:+ ", "))
            = (index ← indexes !! i;
               t ← (operand ← operands model !! index; Some (GetOperandSummary operand));
               Some ((r +:+ t) +:+ ", "))) as Hturn.
  { intros indexes i r. destruct (indexes !! i) as [index|]; simpl; [| reflexivity].
    by destruct (operands model !! index). }
  match goal with
  | |- context [for_loop ?n ?body (Some ?acc)] =>
      rewrite (listing_loop (inputIndexes model) (map GetOperandSummary inputs) body
                 (λ index, operand ← operands model !! index;
                           Some (GetOperandSummary operand)) acc n);
        [| intros i r; apply Hturn | by apply Hnamed | done]
  end.
  cbn [mbind option_bind].
  match goal with
  | |- context [for_loop ?n ?body (Some ?acc)] =>
      rewrite (listing_loop (operations model)
                 (map (λ operation,
                         c_str (OperationType_toString (operation_type operation)))
                    (operations model))
                 body
                 (λ operation,
                    Some (c_str (OperationType_toString (operation_type operation))))
                 acc n);
        [| intros i r; simpl; by destruct (operations model !! i)
         | induction (operations model); simpl; constructor; done
         | done]
  end.
  cbn [mbind option_bind].
  match goal with
  | |- context [for_loop ?n ?body (Some ?acc)] =>
      rewrite (listing_loop (outputIndexes model) (map GetOperandSummary outputs) body
                 (λ index, operand ← operands model !! index;
                           Some (GetOperandSummary operand)) acc n);
        [| intros i r; apply Hturn | by apply Hnamed | done]
  end.
  cbn [mbind option_bind]. f_equal.
  rewrite !firstn_all2.
  - by rewrite !append_assoc.
  - rewrite length_map. by apply Forall2_length in Houtputs as <-.
  - by rewrite length_map.
  - rewrite length_map. by apply Forall2_length in Hinputs as <-.
Qed.

(** X14: when neither [arrayToString] nor the two [toString] functions
    produce line breaks, the summary of such a model has exactly four
    lines. *)
Theorem GetModelSummary_four_lines (model : ModelContent) (inputs outputs : list Operand) :
  (∀ sizes n, count_newlines (arrayToString sizes n) = 0%nat) →
  (∀ t, count_newlines (OperandType_toString t) = 0%nat) →
  (∀ t, count_newlines (OperationType_toString t) = 0%nat) →
  Forall2 (λ index operand, operands model !! index = Some operand)
    (inputIndexes model) inputs →
  Forall2 (λ index operand, operands model !! index = Some operand)
    (outputIndexes model) outputs →
  ∃ text, GetModelSummary model = Some text ∧ count_newlines text = 4%nat.
Proof.
  intros Harray Hoperand Hoperation Hinputs Houtputs.
  eexists. split; [by apply GetModelSummary_text |].
  assert (∀ named, count_newlines (listing (map GetOperandSummary named)) = 0%nat) as Hnamed.
  { intros named. apply count_newlines_listing, Forall_forall.
    intros text (operand & <- & _)%in_map_iff. unfold GetOperandSummary.
    by rewrite !count_newlines_append, Harray, Hoperand. }
  assert (count_newlines
            (listing (map (λ operation,
                             c_str (OperationType_toString (operation_type operation)))
                        (operations model))) = 0%nat) as Hops.
  { apply count_newlines_listing, Forall_forall.
    intros text (operation & <- & _)%in_map_iff. apply count_newlines_c_str, Hoperation. }
  rewrite !count_newlines_append, !Hnamed, Hops.
  rewrite !(digits_no_newline _ (show_unsigned_digits _)). reflexivity.
Qed.

(** ** What a swizzle leaves in the destination *)

Lemma scatter_untouched (T : Type) `{!ElementType T} `{!ElementStore T} `{!ElementLaws T}
  (target : nat → nat) (src dst : Memory) (count j : nat) :
  (∀ i, (i < count)%nat → target i ≠ j) →
  element_at (T := T)
    (for_loop count (λ i dst, store_at dst (target i) (element_at (T := T) src i)) dst) j
  = element_at (T := T) dst j.
Proof.
  intros Hother. induction count as [|count IH]; [reflexivity |]. simpl.
  rewrite load_store_ne by (apply Hother; lia).
  apply IH. intros i Hi. apply Hother. lia.
Qed.

Lemma GetNumElements_Permutation (shape shape' : list nat) :
  shape ≡ₚ shape' → GetNumElements shape = GetNumElements shape'.
Proof.
  unfold GetNumElements.
  induction 1 as [| x l l' _ IH | x y l | l l' l'' _ IH _ IH']; simpl.
  - reflexivity.
  - by rewrite IH.
  - by rewrite !Nat.mul_assoc, (Nat.mul_comm x y).
  - by rewrite IH.
Qed.

Lemma permute_tuple_Permutation (n : nat) (P shape : list nat) :
  P ≡ₚ seq 0 n → length shape = n → permute_tuple P shape ≡ₚ shape.
Proof.
  intros HP Hlen. unfold permute_tuple.
  rewrite (Permutation_map _ HP). subst n. by rewrite map_nth_seq.
Qed.

(** X15: for a permutation vector over the tensor's rank, a swizzle fills
    the first N elements of the destination with the N elements of the
    input, the element at source offset k going to the offset of its
    permuted multi-index, every destination element below N being some input
    element, and leaves the destination from element N on as it was; N is
    the element count, which the permuted shape keeps. *)
Theorem swizzle_fills_the_destination (T : Type)
  `{!ElementType T} `{!ElementStore T} `{!ElementLaws T}
  (shape : TensorShape) (P : PermutationVector) (input output : Memory) :
  P ≡ₚ seq 0 (length shape) →
  let shape' := Permuted shape P in
  let result := SwizzleAndroidNn4dTensorToArmNn_typed T shape input output P in
  GetNumElements shape' = GetNumElements shape
  ∧ (∀ k, (k < GetNumElements shape)%nat →
          element_at (T := T) result
            (flat_offset shape' (permute_tuple P (multi_index shape k)))
          = element_at (T := T) input k)
  ∧ (∀ j, (j < GetNumElements shape)%nat →
          ∃ k, (k < GetNumElements shape)%nat
               ∧ element_at (T := T) result j = element_at (T := T) input k)
  ∧ (∀ j, (GetNumElements shape ≤ j)%nat →
          element_at (T := T) result j = element_at (T := T) output j).
Proof.
  intros HP shape' result.
  pose proof (inverse_permutation _ _ HP) as HQ.
  assert (shape' = permute_tuple P shape) as Hshape'
    by (by apply (Permuted_permutation _ _ HP)).
  assert (length shape' = length shape) as Hlen'.
  { rewrite Hshape'. unfold permute_tuple.
    by rewrite length_map, (permutation_length _ _ HP). }
  assert (permute_tuple (inverse P) shape' = shape) as Hback
    by (rewrite Hshape'; by apply (permute_tuple_inverse _ _ HP)).
  assert (GetNumElements shape' = GetNumElements shape) as Hcount.
  { rewrite Hshape'. apply GetNumElements_Permutation.
    by apply (permute_tuple_Permutation _ _ _ HP). }
  set (f := λ k, flat_offset shape' (permute_tuple P (multi_index shape k))).
  set (g := λ j, flat_offset shape (permute_tuple (inverse P) (multi_index shape' j))).
  assert (∀ k, (k < GetNumElements shape)%nat →
               (f k < GetNumElements shape')%nat ∧ g (f k) = k) as Hgf.
  { intros k Hk. unfold f, g. rewrite Hshape'.
    by apply permuted_offset_round_trip. }
  assert (∀ j, (j < GetNumElements shape')%nat →
               (g j < GetNumElements shape)%nat ∧ f (g j) = j) as Hfg.
  { intros j Hj. unfold f, g.
    assert (inverse P ≡ₚ seq 0 (length shape')) as HQ' by (by rewrite Hlen').
    pose proof (permuted_offset_round_trip shape' (inverse P) j HQ' Hj) as H.
    cbv zeta in H. by rewrite Hback, (inverse_inverse _ _ HP) in H. }
  assert (result
          = for_loop (GetNumElements shape)
              (λ k dst, store_at dst (f k) (element_at (T := T) input k)) output)
    as Hresult.
  { unfold result, SwizzleAndroidNn4dTensorToArmNn_typed. fold shape'.
    rewrite (Permute_permutation T shape' P) by (by rewrite Hlen').
    cbv zeta. by rewrite Hback. }
  assert (∀ i j, (i < GetNumElements shape)%nat → (j < GetNumElements shape)%nat →
                 f i = f j → i = j) as Hinj.
  { intros i j Hi Hj Heq.
    rewrite <- (proj2 (Hgf i Hi)), <- (proj2 (Hgf j Hj)). by rewrite Heq. }
  split; [exact Hcount |]. rewrite Hresult. split; [| split].
  - intros k Hk. by apply (scatter_lookup T f).
  - intros j Hj. rewrite <- Hcount in Hj. destruct (Hfg j Hj) as [Hg Hfgj].
    exists (g j). split; [exact Hg |].
    rewrite <- Hfgj at 1. by apply (scatter_lookup T f).
  - intros j Hj. apply (scatter_untouched T f).
    intros i Hi Heq. destruct (Hgf i Hi) as [Hlt _]. lia.
Qed.

(** With the empty vector, and with the identity vector, the elements stay
    where they are. *)
Lemma permute_tuple_identity (xs : list nat) : permute_tuple (seq 0 (length xs)) xs = xs.
Proof. apply map_nth_seq. Qed.

Lemma inverse_seq (n : nat) : inverse (seq 0 n) = seq 0 n.
Proof.
  unfold inverse. rewrite length_seq.
  transitivity (map id (seq 0 n)); [| apply map_id]. apply map_ext_in.
  intros j [_ Hj]%in_seq. simpl in Hj.
  apply index_of_unique; [apply NoDup_seq |]. by rewrite lookup_seq_lt.
Qed.

(** X16: a swizzle by the empty vector ([g_DontPermute]) or by the
    identity vector copies the tensor's N elements to the same offsets and
    leaves the destination from element N on as it was. *)
Theorem swizzle_identity (T : Type) `{!ElementType T} `{!ElementStore T} `{!ElementLaws T}
  (shape : TensorShape) (P : PermutationVector) (input output : Memory) :
  P = g_DontPermute ∨ P = seq 0 (length shape) →
  let result := SwizzleAndroidNn4dTensorToArmNn_typed T shape input output P in
  Permuted shape P = shape
  ∧ (∀ k, (k < GetNumElements shape)%nat →
          element_at (T := T) result k = element_at (T := T) input k)
  ∧ (∀ j, (GetNumElements shape ≤ j)%nat →
          element_at (T := T) result j = element_at (T := T) output j).
Proof.
  intros HP result.
  assert (Permuted shape P = shape) as Hshape.
  { destruct HP as [-> | ->]; [reflexivity |].
    unfold Permuted. destruct (seq 0 (length shape)) eqn:E.
    - reflexivity.
    - rewrite <- E. apply permute_tuple_identity. }
  assert (result
          = for_loop (GetNumElements shape)
              (λ k dst, store_at dst k (element_at (T := T) input k)) output) as ->.
  { unfold result, SwizzleAndroidNn4dTensorToArmNn_typed. rewrite Hshape.
    destruct HP as [-> | ->]; [reflexivity |].
    rewrite (Permute_permutation T shape (seq 0 (length shape))) by reflexivity.
    cbv zeta.
    pose proof (inverse_seq (length shape)) as Hinv.
    rewrite Hinv, permute_tuple_identity.
    apply for_loop_ext. intros k dst Hk.
    pose proof (multi_index_valid shape k Hk) as Hvalid.
    apply Forall2_length in Hvalid as Hlen.
    by rewrite <- Hlen at 1; rewrite permute_tuple_identity, flat_offset_multi_index. }
  split; [exact Hshape |]. split.
  - intros k Hk. by apply (scatter_lookup T (λ i, i)).
  - intros j Hj. apply (scatter_untouched T (λ i, i)). intros i Hi. lia.
Qed.

(** ** The lines of a dump *)

Lemma counted_put (text : string) (s : ofstream) (n : nat) :
  counted s n → counted (put text s) (n + count_newlines text).
Proof.
  intros (Hgood & Hlimit & <-). rewrite (put_good _ _ Hgood Hlimit).
  split; [reflexivity |]. split; [reflexivity |].
  simpl. apply count_newlines_append.
Qed.

Lemma counted_put_text (text : string) (s : ofstream) (n : nat) :
  count_newlines text = 0%nat → counted s n → counted (put text s) n.
Proof. intros Htext Hs. rewrite <- (Nat.add_0_r n), <- Htext. by apply counted_put. Qed.

Lemma counted_put_endl (s : ofstream) (n : nat) : counted s n → counted (put endl s) (S n).
Proof. intros Hs. rewrite <- Nat.add_1_r. by apply (counted_put endl). Qed.

Lemma counted_for_loop (turns : nat) (body : nat → ofstream → ofstream) (k : nat)
  (s : ofstream) (n : nat) :
  counted s n →
  (∀ i s m, (i < turns)%nat → counted s m → counted (body i s) (m + k)) →
  counted (for_loop turns body s) (n + turns * k).
Proof.
  intros Hs Hbody. induction turns as [|turns IH]; simpl.
  - by rewrite Nat.add_0_r.
  - replace (n + (k + turns * k))%nat with (n + turns * k + k)%nat by lia.
    apply Hbody; [lia |]. apply IH. intros i s' m Hi. apply Hbody. lia.
Qed.

Lemma show_signed_no_newline (z : Z) : count_newlines (show_signed z) = 0%nat.
Proof.
  unfold show_signed, DecimalString.NilZero.string_of_int.
  destruct (Z.to_int z) as [d | d].
  - apply digits_no_newline.
    unfold DecimalString.NilZero.string_of_uint.
    destruct d; try reflexivity;
      match goal with |- string_forall _ (_ ?u) = _ => apply (string_of_uint_digits u) end.
  - simpl. apply digits_no_newline.
    unfold DecimalString.NilZero.string_of_uint.
    destruct d; try reflexivity;
      match goal with |- string_forall _ (_ ?u) = _ => apply (string_of_uint_digits u) end.
Qed.

Lemma show_unsigned_no_newline (z : Z) : count_newlines (show_unsigned z) = 0%nat.
Proof. apply digits_no_newline, show_unsigned_digits. Qed.

Lemma dump_header_counted (tensor : ConstTensor) (s : ofstream) (n : nat) :
  counted s n → counted (dump_header tensor s) (n + 2).
Proof.
  intros Hs. unfold dump_header.
  replace (n + 2)%nat with (S (S n + (GetNumDimensions (GetShape (GetInfo tensor)) - 1) * 0))
    by lia.
  apply counted_put_endl, counted_put_text; [reflexivity |].
  apply counted_for_loop.
  - apply counted_put_text; [apply show_unsigned_no_newline |].
    apply counted_put_text; [reflexivity |].
    apply counted_put_text.
    { unfold MemoryLayoutString.
      by destruct (GetNumDimensions _) as [|[|[|[|[|]]]]]. }
    apply counted_put_text; [reflexivity |].
    apply counted_put_endl, counted_put_text; [apply show_unsigned_no_newline |].
    by apply counted_put_text.
  - intros i s' m _ Hs'. rewrite Nat.add_0_r.
    apply counted_put_text; [apply show_unsigned_no_newline |].
    by apply counted_put_text.
Qed.

Lemma counted_eq (s : ofstream) (n m : nat) : counted s n → n = m → counted s m.
Proof. by intros H <-. Qed.

Lemma counted_heading (c : bool) (label : string) (z : Z) (s : ofstream) (m : nat) :
  count_newlines label = 0%nat →
  counted s m →
  counted (if c then put endl (put (show_unsigned z) (put label s)) else s)
    (m + (if c then 1 else 0)).
Proof.
  intros Hlabel Hs. destruct c.
  - rewrite Nat.add_1_r. apply counted_put_endl.
    apply counted_put_text; [apply show_unsigned_no_newline |].
    by apply counted_put_text.
  - by rewrite Nat.add_0_r.
Qed.

Lemma dump_grid_counted (offset : nat → nat → nat → nat → Z) (f : DumpElementFunction)
  (tensor : ConstTensor) (numDimensions batch height width channels : nat)
  (s : ofstream) (n : nat) :
  (∀ e s m, counted s m → counted (f tensor e s) m) →
  counted s n →
  counted (dump_grid offset f tensor numDimensions batch height width channels s)
    (n + dump_grid_lines numDimensions batch height channels).
Proof.
  intros Hf Hs. unfold dump_grid, dump_grid_lines.
  set (h4 := if (4 <=? numDimensions)%nat then 1%nat else 0%nat).
  set (h3 := if (3 <=? numDimensions)%nat then 1%nat else 0%nat).
  eapply counted_eq.
  - apply counted_put_endl.
    apply (counted_for_loop batch _ (h4 + channels * (h3 + height) + 1) s n Hs).
    intros b s1 m1 _ Hs1.
    eapply counted_eq.
    + apply counted_put_endl.
      apply (counted_for_loop channels _ (h3 + height) _ (m1 + h4)).
      * by apply counted_heading.
      * intros c s2 m2 _ Hs2.
        eapply counted_eq.
        -- apply (counted_for_loop height _ 1 _ (m2 + h3)).
           ++ by apply counted_heading.
           ++ intros h s3 m3 _ Hs3. rewrite Nat.add_1_r. apply counted_put_endl.
              eapply counted_eq.
              ** apply (counted_for_loop width _ 0 _ m3 Hs3).
                 intros w s4 m4 _ Hs4. rewrite Nat.add_0_r. by apply Hf.
              ** lia.
        -- lia.
    + lia.
  - lia.
Qed.

Lemma select_dump_function_counted (t : DataType) (f : DumpElementFunction) :
  (∀ bits, count_newlines (show_float bits) = 0%nat) →
  select_dump_function t = Some f →
  ∀ tensor e s m, counted s m → counted (f tensor e s) m.
Proof.
  intros Hfloat Hsel tensor e s m Hs.
  destruct t; simplify_eq/=; unfold DumpTensorElement;
    (apply counted_put_text; [reflexivity |]);
    (apply counted_put_text; [| exact Hs]).
  - unfold inserted_text, static_cast, cast_same.
    destruct (element_at _ _) as [bits]. apply Hfloat.
  - apply show_unsigned_no_newline.
  - unfold inserted_text, static_cast, cast_same.
    destruct (element_at _ _) as [v]. apply show_signed_no_newline.
Qed.

(** X17: the text of the dump of a tensor of a supported type has two
    header lines and then the lines of the loop nest: a heading per batch
    for rank 4, a heading per channel from rank 3 on, one line per row of
    every channel of every batch, a blank line after each batch and one more
    at the end (given that the text written for a float holds no line
    break); a file that opens holds that text whole, or as much of it as the
    file takes. *)
Theorem DumpTensor_line_count
  (dumpDir requestName tensorName : string) (tensor : ConstTensor) (w : World) :
  can_open w (dump_file_name dumpDir requestName tensorName) = true →
  GetDataType (GetInfo tensor) ∈ [Float32; QuantisedAsymm8; Signed32] →
  (∀ bits, count_newlines (show_float bits) = 0%nat) →
  let shape := GetShape (GetInfo tensor) in
  let fileName := dump_file_name dumpDir requestName tensorName in
  ∃ w' text,
    DumpTensor dumpDir requestName tensorName tensor w = (Returned tt, w')
    ∧ files w' !! fileName = Some (accepted (capacity w fileName) text)
    ∧ text = dump_text tensor
    ∧ count_newlines text
      = (2 + dump_grid_lines (GetNumDimensions shape) (dump_batch shape)
               (dump_height shape) (dump_channels shape))%nat.
Proof.
  intros Hopen Htype Hfloat shape fileName.
  assert (∃ f, select_dump_function (GetDataType (GetInfo tensor)) = Some f) as [f Hsel].
  { apply supported_type_cases in Htype as [-> | [-> | ->]]; simpl; eauto. }
  destruct (DumpTensor_file dumpDir requestName tensorName tensor w _ Hopen eq_refl)
    as (w' & Hrun & Hfile & _).
  exists w', (data (dump_body tensor (new_stream fileName))).
  split; [exact Hrun |]. split; [exact Hfile |]. split; [apply dump_text_name |].
  rewrite (dump_body_supported _ _ _ Hsel), dump_elements_visited_offsets.
  assert (counted (new_stream fileName) 0) as Hnew by (by repeat split).
  pose proof (dump_grid_counted (visited_offset (dump_height shape) (dump_width shape)
                                   (dump_channels shape))
                f tensor (GetNumDimensions shape) (dump_batch shape) (dump_height shape)
                (dump_width shape) (dump_channels shape) _ _
                (select_dump_function_counted _ _ Hfloat Hsel tensor)
                (dump_header_counted tensor _ _ Hnew)) as (_ & _ & Hcount).
  exact Hcount.
Qed.

(** ** Dump files and graph files *)

Lemma append_last_inj (a b : string) (x y : ascii) :
  a +:+ String x "" = b +:+ String y "" → x = y.
Proof.
  revert b. induction a as [|c a IH]; intros [|d b] H.
  - by injection H.
  - rewrite append_cons, append_empty_l in H. injection H as _ H.
    apply (f_equal String.length) in H. rewrite length_append in H. simpl in H. lia.
  - rewrite append_cons, append_empty_l in H. injection H as _ H.
    apply (f_equal String.length) in H. rewrite length_append in H. simpl in H. lia.
  - rewrite !append_cons in H. injection H as _ H. by apply IH in H.
Qed.

Lemma dump_and_graph_names_differ (dumpDir dumpDir' requestName tensorName : string)
  (model : Model) :
  network_graph_file_name dumpDir' model ≠ dump_file_name dumpDir requestName tensorName.
Proof.
  unfold network_graph_file_name, dump_file_name. intros H.
  change ".dot" with (".do" +:+ "t") in H. change ".dump" with (".dum" +:+ "p") in H.
  rewrite <- !append_assoc in H. apply append_last_inj in H. discriminate H.
Qed.

(** X18: a graph file and a dump file never have the same name, whatever
    the directories, names and model address; so a tensor dump leaves every
    exported graph in place. *)
Theorem DumpTensor_keeps_graph_files
  (dumpDir dumpDir' requestName tensorName : string) (tensor : ConstTensor)
  (model : Model) (w : World) :
  network_graph_file_name dumpDir' model ≠ dump_file_name dumpDir requestName tensorName
  ∧ files (DumpTensor dumpDir requestName tensorName tensor w).2
      !! network_graph_file_name dumpDir' model
    = files w !! network_graph_file_name dumpDir' model.
Proof.
  pose proof (dump_and_graph_names_differ dumpDir dumpDir' requestName tensorName model)
    as Hnames.
  split; [exact Hnames |].
  destruct (can_open w (dump_file_name dumpDir requestName tensorName)) eqn:Hopen.
  - rewrite DumpTensor_opened by exact Hopen. cbn [snd files].
    by rewrite lookup_insert_ne.
  - by rewrite DumpTensor_not_opened.
Qed.

End Driver.

(** * The claims at concrete inputs *)

Lemma float32_bits_of_nat_examples :
  map float32_bits_of_nat [0; 1; 2; 3; 11]%nat
  = [0; 0x3F800000; 0x40000000; 0x40400000; 0x41300000].
Proof. reflexivity. Qed.

Lemma show_whole_float_small (n : nat) :
  (n < 12)%nat → show_whole_float (float32_bits_of_nat n) = show_unsigned (Z.of_nat n).
Proof.
  intros Hn. do 12 (destruct n as [|n]; [reflexivity |]). lia.
Defined.

Lemma DumpTensor_sequential_floats_witness :
  (∀ n, (n < 12)%nat →
        show_whole_float (float32_bits_of_nat n) = show_unsigned (Z.of_nat n))
  ∧ can_open (world_of_capacity 4096) (dump_file_name "/data/dump" "request" "input") = true
  ∧ ∃ w', DumpTensor show_whole_float 0 1 2 "/data/dump" "request" "input"
            sequential_float_tensor (world_of_capacity 4096) = (Returned tt, w')
          ∧ files w' !! "/data/dump/request_input.dump"
            = Some (lines [ "# Number of elements 12";
                            "# Dimensions (BHWC) [1,2,2,3]";
                            "# Batch 0";
                            "# Channel 0"; "0,3,"; "6,9,";
                            "# Channel 1"; "1,4,"; "7,10,";
                            "# Channel 2"; "2,5,"; "8,11,";
                            ""; "" ]).
Proof.
  split; [exact show_whole_float_small |]. split; [reflexivity |].
  destruct (DumpTensor_sequential_floats show_whole_float 0 1 2 "/data/dump" "request"
              "input" (world_of_capacity 4096) show_whole_float_small eq_refl)
    as (w' & Hrun & Hfile).
  exists w'. split; [exact Hrun |]. refine (eq_trans Hfile _). vm_compute. reflexivity.
Defined.

Lemma DumpTensor_quantised_element_witness :
  GetDataType (GetInfo two_batch_tensor) = QuantisedAsymm8
  ∧ can_open (world_of_capacity 4096) (dump_file_name "/data/dump" "request" "input") = true
  ∧ ∃ w', DumpTensor show_whole_float 0 1 2 "/data/dump" "request" "input"
            two_batch_tensor (world_of_capacity 4096) = (Returned tt, w')
          ∧ files w' !! "/data/dump/request_input.dump"
            = Some (lines [ "# Number of elements 4";
                            "# Dimensions (BHWC) [2,1,2,1]";
                            "# Batch 0"; "# Channel 0"; "10,20,"; "";
                            "# Batch 1"; "# Channel 0"; "20,30,"; ""; "" ]).
Proof.
  split; [reflexivity |]. split; [reflexivity |].
  destruct (DumpTensor_quantised_element_is_a_number show_whole_float 0 1 2
              "/data/dump" "request" "input" two_batch_tensor (world_of_capacity 4096)
              eq_refl eq_refl) as (w' & Hrun & Hfile & _).
  exists w'. split; [exact Hrun |]. refine (eq_trans Hfile _). vm_compute. reflexivity.
Defined.

Lemma DumpTensor_unsupported_type_witness :
  (GetDataType (GetInfo unknown_type_tensor) ∉ [Float32; QuantisedAsymm8; Signed32])
  ∧ can_open empty_world (dump_file_name "/data/dump" "request" "input") = true
  ∧ ∃ w', DumpTensor show_whole_float 0 1 2 "/data/dump" "request" "input"
            unknown_type_tensor empty_world = (Returned tt, w')
          ∧ files w' !! "/data/dump/request_input.dump"
            = Some (lines ["Cannot dump tensor elements: Unsupported data type 7"])
          ∧ log w' = [].
Proof.
  assert (GetDataType (GetInfo unknown_type_tensor) ∉ [Float32; QuantisedAsymm8; Signed32])
    as Htype.
  { intros H. apply supported_type_cases in H. simpl in H.
    destruct H as [H | [H | H]]; discriminate H. }
  split; [exact Htype |]. split; [reflexivity |].
  destruct (DumpTensor_unsupported_type show_whole_float 0 1 2 "/data/dump" "request" "input"
              unknown_type_tensor empty_world Htype eq_refl)
    as (w' & Hrun & Hfile & _ & _ & Hlog).
  exists w'. split; [exact Hrun |]. split; [exact Hfile | exact Hlog].
Defined.

Lemma DumpTensor_open_failure_witness :
  can_open closed_world (dump_file_name "/nonexistent" "request" "input") = false
  ∧ ∃ w', DumpTensor show_whole_float 0 1 2 "/nonexistent" "request" "input"
            two_batch_tensor closed_world = (Returned tt, w')
          ∧ files w' = ∅
          ∧ log w'
            = [Warning "Could not open file /nonexistent/request_input.dump for writing"].
Proof.
  split; [reflexivity |].
  exact (DumpTensor_open_failure show_whole_float 0 1 2 "/nonexistent" "request" "input"
           two_batch_tensor closed_world eq_refl).
Defined.

Lemma DumpTensor_header_element_count_witness :
  (GetDataType (GetInfo two_batch_tensor) ∈ [Float32; QuantisedAsymm8; Signed32])
  ∧ can_open empty_world (dump_file_name "/data/dump" "request" "input") = true
  ∧ ∃ w' rest,
      DumpTensor show_whole_float 0 1 2 "/data/dump" "request" "input"
        two_batch_tensor empty_world = (Returned tt, w')
      ∧ files w' !! "/data/dump/request_input.dump"
        = Some ("# Number of elements 4" +:+ endl +:+ rest).
Proof.
  assert (GetDataType (GetInfo two_batch_tensor) ∈ [Float32; QuantisedAsymm8; Signed32])
    as Htype by (apply supported_type_cases; right; left; reflexivity).
  split; [exact Htype |]. split; [reflexivity |].
  exact (DumpTensor_header_element_count show_whole_float 0 1 2 "/data/dump" "request"
           "input" two_batch_tensor empty_world Htype eq_refl).
Defined.

Lemma SwizzleAndroidNn4dTensorToArmNn_supported_types_witness :
  GetNumDimensions (GetShape (GetInfo two_batch_tensor)) = 4%nat
  ∧ SwizzleAndroidNn4dTensorToArmNn false (GetInfo two_batch_tensor)
      six_bytes zero_memory [0; 3; 1; 2]%nat empty_world
    = (Returned tt,
       SwizzleAndroidNn4dTensorToArmNn_typed uint8_t [2; 1; 2; 1]%nat
         six_bytes zero_memory [0; 3; 1; 2]%nat,
       empty_world).
Proof.
  split; [reflexivity |].
  destruct (SwizzleAndroidNn4dTensorToArmNn_supported_types false (GetInfo two_batch_tensor)
              six_bytes zero_memory [0; 3; 1; 2]%nat empty_world eq_refl)
    as (_ & _ & Hquantised).
  exact (Hquantised eq_refl).
Defined.

Lemma GetTensorInfoForOperand_by_type_witness :
  GetTensorInfoForOperand scalar_operand = Thrown (UnsupportedOperand (OtherOperandType 1))
  ∧ GetTensorInfoForOperand int32_operand
    = Returned {| GetShape := [2; 3]%nat; GetDataType := Signed32;
                  GetQuantizationScale := Float 0; GetQuantizationOffset := 0 |}.
Proof.
  split.
  - apply (proj1 (GetTensorInfoForOperand_by_type scalar_operand)).
    intros H. repeat (apply elem_of_cons in H as [H | H]; [discriminate H |]).
    by apply elem_of_nil in H.
  - apply (proj2 (GetTensorInfoForOperand_by_type int32_operand) Signed32).
    do 2 apply list_elem_of_further. apply list_elem_of_here.
Defined.

(** C3 as stated fails: a rank-4 tensor of 32-bit signed integers, a type
    of the claimed set, ends on the unknown-type path. *)
Lemma SwizzleAndroidNn4dTensorToArmNn_rejects_Signed32 :
  ¬ (swizzle_rejects false signed_tensor_info six_bytes zero_memory [0; 3; 1; 2]%nat
       empty_world
     ↔ GetDataType signed_tensor_info ∉ [Float32; QuantisedAsymm8; Signed32]).
Proof.
  intros [Hreject _]. apply Hreject; [reflexivity |].
  apply supported_type_cases. right. right. reflexivity.
Qed.

(** The spec's scenario for the permutation model: shape [2,3] permuted by
    [1,0] becomes [3,2], and the element at source index (1,2) lands at
    destination index (2,1). *)
Lemma Permuted_2_3_scenario :
  Permuted [2; 3]%nat [1; 0]%nat = [3; 2]%nat
  ∧ permute_tuple [1; 0]%nat (multi_index [2; 3]%nat (flat_offset [2; 3]%nat [1; 2]%nat))
    = [2; 1]%nat
  ∧ map (SwizzleAndroidNn4dTensorToArmNn_typed uint8_t [2; 3]%nat six_bytes zero_memory
           [1; 0]%nat) (seq 0 6)
    = [x00; x03; x01; x04; x02; x05].
Proof. repeat split. Qed.

(** With the empty vector the tensor is copied as it is. *)
Lemma Permute_dont_permute :
  Permuted [2; 3]%nat g_DontPermute = [2; 3]%nat
  ∧ map (SwizzleAndroidNn4dTensorToArmNn_typed uint8_t [2; 3]%nat six_bytes zero_memory
           g_DontPermute) (seq 0 6)
    = [x00; x01; x02; x03; x04; x05].
Proof. repeat split. Qed.

Lemma swizzle_round_trip_witness :
  [0; 3; 1; 2]%nat ≡ₚ seq 0 (length [1; 2; 3; 1]%nat)
  ∧ Permuted (Permuted [1; 2; 3; 1]%nat [0; 3; 1; 2]%nat) (inverse [0; 3; 1; 2]%nat)
    = [1; 2; 3; 1]%nat
  ∧ ∀ k, (k < 6)%nat →
         SwizzleAndroidNn4dTensorToArmNn_typed uint8_t
           (Permuted [1; 2; 3; 1]%nat [0; 3; 1; 2]%nat)
           (SwizzleAndroidNn4dTensorToArmNn_typed uint8_t [1; 2; 3; 1]%nat
              six_bytes zero_memory [0; 3; 1; 2]%nat)
           zero_memory (inverse [0; 3; 1; 2]%nat) k
         = six_bytes k.
Proof.
  assert ([0; 3; 1; 2]%nat ≡ₚ seq 0 (length [1; 2; 3; 1]%nat)) as Hperm.
  { simpl. apply perm_skip. apply (Permutation_cons_append [1; 2]%nat 3%nat). }
  split; [exact Hperm |].
  exact (swizzle_round_trip uint8_t [1; 2; 3; 1]%nat [0; 3; 1; 2]%nat
           six_bytes zero_memory zero_memory Hperm).
Defined.

(** * The further properties at concrete inputs *)

Lemma DumpTensor_single_batch_row_major_witness :
  can_open (world_of_capacity 4096) (dump_file_name "/data/dump" "request" "input") = true
  ∧ select_dump_function show_whole_float (GetDataType (GetInfo sequential_float_tensor))
    = Some (DumpTensorElement float float (Insertable0 := insert_float show_whole_float))
  ∧ dump_batch (GetShape (GetInfo sequential_float_tensor)) = 1%nat
  ∧ ∃ w', DumpTensor show_whole_float 0 1 2 "/data/dump" "request" "input"
            sequential_float_tensor (world_of_capacity 4096) = (Returned tt, w')
          ∧ files w' !! "/data/dump/request_input.dump"
            = Some (lines [ "# Number of elements 12";
                            "# Dimensions (BHWC) [1,2,2,3]";
                            "# Batch 0";
                            "# Channel 0"; "0,3,"; "6,9,";
                            "# Channel 1"; "1,4,"; "7,10,";
                            "# Channel 2"; "2,5,"; "8,11,";
                            ""; "" ]).
Proof.
  split; [reflexivity |]. split; [reflexivity |]. split; [reflexivity |].
  destruct (DumpTensor_single_batch_row_major show_whole_float 0 1 2
              "/data/dump" "request" "input" sequential_float_tensor
              (world_of_capacity 4096)
              (DumpTensorElement float float (Insertable0 := insert_float show_whole_float))
              eq_refl eq_refl eq_refl eq_refl) as (w' & Hrun & Hfile).
  exists w'. split; [exact Hrun |]. refine (eq_trans Hfile _). vm_compute. reflexivity.
Defined.

Lemma DumpTensor_reads_only_the_elements_witness :
  GetInfo two_batch_tensor_longer = GetInfo two_batch_tensor
  ∧ (length (GetShape (GetInfo two_batch_tensor)) ≤ 4)%nat
  ∧ agree_below 4 (GetMemoryArea two_batch_tensor) (GetMemoryArea two_batch_tensor_longer)
  ∧ GetMemoryArea two_batch_tensor 4%nat ≠ GetMemoryArea two_batch_tensor_longer 4%nat
  ∧ DumpTensor show_whole_float 0 1 2 "/data/dump" "request" "input"
      two_batch_tensor_longer empty_world
    = DumpTensor show_whole_float 0 1 2 "/data/dump" "request" "input"
        two_batch_tensor empty_world.
Proof.
  assert (agree_below 4 (GetMemoryArea two_batch_tensor)
            (GetMemoryArea two_batch_tensor_longer)) as Hagree.
  { intros a Ha. do 4 (destruct a as [|a]; [reflexivity |]). lia. }
  split; [reflexivity |]. split; [simpl; lia |]. split; [exact Hagree |].
  split; [discriminate |].
  exact (DumpTensor_reads_only_the_elements show_whole_float 0 1 2
           "/data/dump" "request" "input" two_batch_tensor two_batch_tensor_longer
           empty_world eq_refl (le_n 4) eq_refl Hagree).
Defined.

Lemma dump_header_two_lines_witness :
  GetShape (GetInfo two_batch_tensor) ≠ []
  ∧ data (dump_header two_batch_tensor (new_stream "f"))
    = lines [ "# Number of elements 4"; "# Dimensions (BHWC) [2,1,2,1]" ]
  ∧ data (dump_header two_batch_tensor (stream_on "f" (Some 30%nat)))
    = "# Number of elements 4" +:+ endl +:+ "# Dimen"
  ∧ good (dump_header two_batch_tensor (stream_on "f" (Some 30%nat))) = false.
Proof.
  split; [discriminate |].
  destruct (dump_header_two_lines two_batch_tensor (new_stream "f") ltac:(discriminate))
    as [_ Hdata].
  destruct (dump_header_two_lines two_batch_tensor (stream_on "f" (Some 30%nat))
              ltac:(discriminate)) as [Hput _].
  split; [exact (Hdata eq_refl eq_refl) |].
  rewrite Hput. split; reflexivity.
Defined.

Lemma network_graph_file_name_by_address_witness :
  0 ≤ address (model_at 48879) ∧ 0 ≤ address (model_at 51966)
  ∧ show_upper_hex (address (model_at 48879)) = "BEEF"
  ∧ network_graph_file_name "/data/dump" (model_at 48879)
    ≠ network_graph_file_name "/data/dump" (model_at 51966).
Proof.
  split; [simpl; lia |]. split; [simpl; lia |]. split; [reflexivity |].
  intros Hsame.
  destruct (network_graph_file_name_by_address "/data/dump" (model_at 48879)
              (model_at 51966) ltac:(simpl; lia) ltac:(simpl; lia)) as (_ & _ & Hinj).
  specialize (Hinj Hsame). discriminate Hinj.
Defined.

Lemma ExportNetworkGraphToDotFile_open_failure_witness :
  "/nonexistent" ≠ ""
  ∧ can_open closed_world (network_graph_file_name "/nonexistent" (model_at 48879)) = false
  ∧ ∃ w', ExportNetworkGraphToDotFile empty_graph_network "/nonexistent" (model_at 48879)
            closed_world = (Returned tt, w')
          ∧ files w' = ∅
          ∧ log w'
            = [ Verbose ("Exporting the optimized network graph to file: "
                         +:+ "/nonexistent/networkgraph_BEEF.dot");
                Warning "Could not open file /nonexistent/networkgraph_BEEF.dot for writing" ].
Proof.
  split; [discriminate |]. split; [reflexivity |].
  exact (ExportNetworkGraphToDotFile_open_failure empty_graph_network "/nonexistent"
           (model_at 48879) closed_world ltac:(discriminate) eq_refl).
Defined.

Lemma ExportNetworkGraphToDotFile_writes_the_graph_witness :
  "/data/dump" ≠ ""
  ∧ can_open empty_world (network_graph_file_name "/data/dump" (model_at 48879)) = true
  ∧ ∃ w', ExportNetworkGraphToDotFile empty_graph_network "/data/dump" (model_at 48879)
            empty_world = (Returned tt, w')
          ∧ files w' !! "/data/dump/networkgraph_BEEF.dot" = Some "digraph {}"
          ∧ log w'
            = [ Verbose ("Exporting the optimized network graph to file: "
                         +:+ "/data/dump/networkgraph_BEEF.dot") ].
Proof.
  split; [discriminate |]. split; [reflexivity |].
  destruct (ExportNetworkGraphToDotFile_writes_the_graph empty_graph_network "/data/dump"
              (model_at 48879) empty_world Success
              {| path := "/data/dump/networkgraph_BEEF.dot"; is_open := true;
                 good := true; data := "digraph {}"; limit := None |}
              ltac:(discriminate) eq_refl eq_refl eq_refl eq_refl)
    as (w' & Hrun & Hfile & _ & Hlog).
  exists w'. split; [exact Hrun |]. split; [exact Hfile | exact Hlog].
Defined.

Lemma DumpTensor_overwrites_witness :
  can_open empty_world (dump_file_name "/data/dump" "request" "input") = true
  ∧ room_for empty_world (dump_file_name "/data/dump" "request" "input")
      (dump_text show_whole_float 0 1 2 two_batch_tensor) = true
  ∧ ∃ w1, DumpTensor show_whole_float 0 1 2 "/data/dump" "request" "input"
            two_batch_tensor empty_world = (Returned tt, w1)
          ∧ DumpTensor show_whole_float 0 1 2 "/data/dump" "request" "input"
              unknown_type_tensor w1
            = DumpTensor show_whole_float 0 1 2 "/data/dump" "request" "input"
                unknown_type_tensor empty_world.
Proof.
  split; [reflexivity |]. split; [reflexivity |].
  pose proof (DumpTensor_written show_whole_float 0 1 2 "/data/dump" "request" "input"
                two_batch_tensor empty_world eq_refl eq_refl) as Hfirst.
  eexists. split; [exact Hfirst |].
  exact (proj2 (DumpTensor_overwrites show_whole_float 0 1 2 "/data/dump" "request"
                  "input" two_batch_tensor unknown_type_tensor empty_world _
                  eq_refl Hfirst) eq_refl).
Defined.

Lemma GetTensorInfoForOperand_then_DumpTensor_witness :
  GetTensorInfoForOperand int32_operand = Returned (GetInfo int32_tensor)
  ∧ can_open empty_world (dump_file_name "/data/dump" "request" "input") = true
  ∧ ∃ w' rest,
      DumpTensor show_whole_float 0 1 2 "/data/dump" "request" "input"
        int32_tensor empty_world = (Returned tt, w')
      ∧ files w' !! "/data/dump/request_input.dump"
        = Some ("# Number of elements 6" +:+ endl +:+ rest).
Proof.
  split; [reflexivity |]. split; [reflexivity |].
  exact (GetTensorInfoForOperand_then_DumpTensor show_whole_float 0 1 2 int32_operand
           int32_tensor "/data/dump" "request" "input" empty_world eq_refl eq_refl).
Defined.

Lemma GetTensorInfoForOperand_then_swizzle_witness :
  GetTensorInfoForOperand int32_operand_4d = Returned signed_tensor_info
  ∧ length (dimensions int32_operand_4d) = 4%nat
  ∧ swizzle_rejects false signed_tensor_info six_bytes zero_memory [0; 3; 1; 2]%nat
      empty_world.
Proof.
  split; [reflexivity |]. split; [reflexivity |].
  apply (GetTensorInfoForOperand_then_swizzle false int32_operand_4d signed_tensor_info
           six_bytes zero_memory [0; 3; 1; 2]%nat empty_world eq_refl eq_refl).
  reflexivity.
Defined.

Lemma small_model_inputs :
  Forall2 (λ index operand, operands small_model !! index = Some operand)
    (inputIndexes small_model) [int32_operand; scalar_operand].
Proof. repeat constructor. Defined.

Lemma small_model_outputs :
  Forall2 (λ index operand, operands small_model !! index = Some operand)
    (outputIndexes small_model) [scalar_operand].
Proof. repeat constructor. Defined.

Lemma GetModelSummary_text_witness :
  Forall2 (λ index operand, operands small_model !! index = Some operand)
    (inputIndexes small_model) [int32_operand; scalar_operand]
  ∧ Forall2 (λ index operand, operands small_model !! index = Some operand)
      (outputIndexes small_model) [scalar_operand]
  ∧ GetModelSummary operand_type_name operation_type_name size_in_braces small_model
    = Some (lines [ "2 input(s), 2 operation(s), 1 output(s), 2 operand(s)";
                    "Inputs: {2} TENSOR_INT32, {0} OTHER, ";
                    "Operations: 3, 14, ";
                    "Outputs: {0} OTHER, " ]).
Proof.
  split; [exact small_model_inputs |]. split; [exact small_model_outputs |].
  rewrite (GetModelSummary_text operand_type_name operation_type_name size_in_braces
             small_model _ _ small_model_inputs small_model_outputs).
  reflexivity.
Defined.

Lemma size_in_braces_no_newline (sizes : list nat) (n : nat) :
  count_newlines (size_in_braces sizes n) = 0%nat.
Proof.
  unfold size_in_braces.
  rewrite !count_newlines_append, show_unsigned_no_newline. reflexivity.
Defined.

Lemma operand_type_name_no_newline (t : OperandType) :
  count_newlines (operand_type_name t) = 0%nat.
Proof. destruct t; reflexivity. Defined.

Lemma operation_type_name_no_newline (t : OperationType) :
  count_newlines (operation_type_name t) = 0%nat.
Proof. destruct t. apply show_unsigned_no_newline. Defined.

Lemma GetModelSummary_four_lines_witness :
  (∀ sizes n, count_newlines (size_in_braces sizes n) = 0%nat)
  ∧ (∀ t, count_newlines (operand_type_name t) = 0%nat)
  ∧ (∀ t, count_newlines (operation_type_name t) = 0%nat)
  ∧ Forall2 (λ index operand, operands small_model !! index = Some operand)
      (inputIndexes small_model) [int32_operand; scalar_operand]
  ∧ Forall2 (λ index operand, operands small_model !! index = Some operand)
      (outputIndexes small_model) [scalar_operand]
  ∧ ∃ text, GetModelSummary operand_type_name operation_type_name size_in_braces
              small_model = Some text
            ∧ count_newlines text = 4%nat.
Proof.
  split; [exact size_in_braces_no_newline |].
  split; [exact operand_type_name_no_newline |].
  split; [exact operation_type_name_no_newline |].
  split; [exact small_model_inputs |]. split; [exact small_model_outputs |].
  exact (GetModelSummary_four_lines operand_type_name operation_type_name size_in_braces
           small_model _ _ size_in_braces_no_newline operand_type_name_no_newline
           operation_type_name_no_newline small_model_inputs small_model_outputs).
Defined.

Lemma swizzle_fills_the_destination_witness :
  [0; 3; 1; 2]%nat ≡ₚ seq 0 (length [1; 2; 3; 1]%nat)
  ∧ map (SwizzleAndroidNn4dTensorToArmNn_typed uint8_t [2; 3]%nat six_bytes zero_memory
           [1; 0]%nat) (seq 0 8)
    = [x00; x03; x01; x04; x02; x05; x00; x00]
  ∧ ∀ j, (6 ≤ j)%nat →
         SwizzleAndroidNn4dTensorToArmNn_typed uint8_t [1; 2; 3; 1]%nat six_bytes zero_memory
           [0; 3; 1; 2]%nat j
         = zero_memory j.
Proof.
  assert ([0; 3; 1; 2]%nat ≡ₚ seq 0 (length [1; 2; 3; 1]%nat)) as Hperm.
  { simpl. apply perm_skip. apply (Permutation_cons_append [1; 2]%nat 3%nat). }
  split; [exact Hperm |]. split; [reflexivity |].
  destruct (swizzle_fills_the_destination uint8_t [1; 2; 3; 1]%nat [0; 3; 1; 2]%nat
              six_bytes zero_memory Hperm) as (_ & _ & _ & Hrest).
  exact Hrest.
Defined.

Lemma swizzle_identity_witness :
  (g_DontPermute = g_DontPermute ∨ g_DontPermute = seq 0 (length [2; 3]%nat))
  ∧ ∀ k, (k < 6)%nat →
         SwizzleAndroidNn4dTensorToArmNn_typed uint8_t [2; 3]%nat six_bytes zero_memory
           g_DontPermute k
         = six_bytes k.
Proof.
  split; [by left |].
  destruct (swizzle_identity uint8_t [2; 3]%nat g_DontPermute six_bytes zero_memory
              (or_introl eq_refl)) as (_ & Hcopy & _).
  exact Hcopy.
Defined.

Lemma show_whole_float_no_newline (bits : Z) : count_newlines (show_whole_float bits) = 0%nat.
Proof.
  unfold show_whole_float. destruct (bits =? 0); [reflexivity |].
  apply show_unsigned_no_newline.
Defined.

Lemma DumpTensor_line_count_witness :
  can_open (world_of_capacity 4096) (dump_file_name "/data/dump" "request" "input") = true
  ∧ (GetDataType (GetInfo two_batch_tensor) ∈ [Float32; QuantisedAsymm8; Signed32])
  ∧ (∀ bits, count_newlines (show_whole_float bits) = 0%nat)
  ∧ ∃ w' text,
      DumpTensor show_whole_float 0 1 2 "/data/dump" "request" "input"
        two_batch_tensor (world_of_capacity 4096) = (Returned tt, w')
      ∧ files w' !! "/data/dump/request_input.dump" = Some text
      ∧ count_newlines text = 11%nat.
Proof.
  assert (GetDataType (GetInfo two_batch_tensor) ∈ [Float32; QuantisedAsymm8; Signed32])
    as Htype by (apply supported_type_cases; right; left; reflexivity).
  split; [reflexivity |]. split; [exact Htype |].
  split; [exact show_whole_float_no_newline |].
  destruct (DumpTensor_line_count show_whole_float 0 1 2 "/data/dump" "request" "input"
              two_batch_tensor (world_of_capacity 4096) eq_refl Htype
              show_whole_float_no_newline) as (w' & text & Hrun & Hfile & Htext & Hcount).
  exists w', text. split; [exact Hrun |]. split; [| exact Hcount].
  refine (eq_trans Hfile _). rewrite Htext. vm_compute. reflexivity.
Defined.

Lemma DumpTensor_write_failure_witness :
  can_open (world_of_capacity 40) (dump_file_name "/data/dump" "request" "input") = true
  ∧ capacity (world_of_capacity 40) (dump_file_name "/data/dump" "request" "input")
    = Some 40%nat
  ∧ (40 < String.length (dump_text show_whole_float 0 1 2 two_batch_tensor))%nat
  ∧ ∃ w', DumpTensor show_whole_float 0 1 2 "/data/dump" "request" "input"
            two_batch_tensor (world_of_capacity 40) = (Returned tt, w')
          ∧ files w' !! "/data/dump/request_input.dump"
            = Some ("# Number of elements 4" +:+ endl +:+ "# Dimensions (BHW")
          ∧ log w'
            = [Warning "An error occurred when writing to file /data/dump/request_input.dump"].
Proof.
  assert (40 < String.length (dump_text show_whole_float 0 1 2 two_batch_tensor))%nat
    as Hlong by (vm_compute; lia).
  split; [reflexivity |]. split; [reflexivity |]. split; [exact Hlong |].
  destruct (DumpTensor_write_failure show_whole_float 0 1 2 "/data/dump" "request" "input"
              two_batch_tensor (world_of_capacity 40) 40 eq_refl eq_refl Hlong)
    as (w' & Hrun & Hfile & _ & Hlog).
  exists w'. split; [exact Hrun |]. split; [| exact Hlog].
  refine (eq_trans Hfile _). vm_compute. reflexivity.
Defined.
